(** * sync-data.js: the Google Sheets JSON to YAML pipeline

    A shallow embedding of [scripts/sync-data.js] (fetch, normalize,
    validate, write, orchestrate) and the properties its specification
    states about it.

    Conventions of the embedding.
    - A JavaScript string is the sequence of its code units; the model
      keeps the code units below 256, one [ascii] each.
    - A number is an IEEE 754 double ([spec_float]); the script never
      computes with numbers, it only passes them on and tests them for
      truthiness.
    - An object is the list of its own enumerable properties in
      enumeration order, as [Object.entries] returns them. Its prototype
      is no part of the value: what an assignment to [__proto__] does to
      the own properties is modelled, the replaced prototype is not kept.
    - Paths are POSIX paths, as on the runners of the workflow.
    - Effects (console, filesystem, network requests) are threaded through
      an explicit [world]; an exception keeps the effects made before it.
      Console lines are kept without pictographs and blank lines; the
      rule of the summary is drawn with [=]. *)

From Stdlib Require Import List String Ascii Bool Arith ZArith Lia.
From Stdlib Require Import Decimal DecimalString.
From Stdlib Require Import Floats.SpecFloat.
Import ListNotations.

Set Warnings "-register-all".

Local Open Scope list_scope.
Local Open Scope string_scope.

(* ================================================================== *)
(** ** JavaScript values *)

Module Js.

Inductive jsvalue : Type :=
| VUndefined
| VNull
| VBool (b : bool)
| VNumber (x : spec_float)
| VString (s : string)
| VArray (items : list jsvalue)
| VObject (entries : list (string * jsvalue)).

(** Induction over the nesting of arrays and objects. *)
Section ValueInd.
Variable P : jsvalue -> Prop.
Hypothesis Hundef : P VUndefined.
Hypothesis Hnull : P VNull.
Hypothesis Hbool : forall b, P (VBool b).
Hypothesis Hnum : forall x, P (VNumber x).
Hypothesis Hstr : forall s, P (VString s).
Hypothesis Harr : forall items, Forall P items -> P (VArray items).
Hypothesis Hobj :
  forall entries, Forall (fun kv => P (snd kv)) entries -> P (VObject entries).

Fixpoint jsvalue_nested_ind (v : jsvalue) : P v :=
  match v with
  | VUndefined => Hundef
  | VNull => Hnull
  | VBool b => Hbool b
  | VNumber x => Hnum x
  | VString s => Hstr s
  | VArray items =>
      Harr items
        ((fix go (l : list jsvalue) : Forall P l :=
            match l with
            | [] => Forall_nil _
            | x :: l' => Forall_cons _ (jsvalue_nested_ind x) (go l')
            end) items)
  | VObject entries =>
      Hobj entries
        ((fix go (l : list (string * jsvalue)) : Forall (fun kv => P (snd kv)) l :=
            match l with
            | [] => Forall_nil _
            | kv :: l' =>
                Forall_cons (P := fun kv => P (snd kv)) kv
                  (jsvalue_nested_ind (snd kv)) (go l')
            end) entries)
  end.
End ValueInd.

(** [typeof v] *)
Definition typeof (v : jsvalue) : string :=
  match v with
  | VUndefined => "undefined"
  | VNull => "object"
  | VBool _ => "boolean"
  | VNumber _ => "number"
  | VString _ => "string"
  | VArray _ => "object"
  | VObject _ => "object"
  end.

(** [Array.isArray(v)] *)
Definition isArray (v : jsvalue) : bool :=
  match v with VArray _ => true | _ => false end.

Definition is_null (v : jsvalue) : bool :=
  match v with VNull => true | _ => false end.

Definition is_undefined (v : jsvalue) : bool :=
  match v with VUndefined => true | _ => false end.

(** [v === s] for a string literal [s] *)
Definition strict_eq_string (v : jsvalue) (s : string) : bool :=
  match v with VString t => String.eqb t s | _ => false end.

(** ToBoolean: [undefined], [null], [false], [+0], [-0], [NaN] and the
    empty string are falsy, everything else is truthy. *)
Definition truthy (v : jsvalue) : bool :=
  match v with
  | VUndefined | VNull => false
  | VBool b => b
  | VNumber (S754_zero _) | VNumber S754_nan => false
  | VNumber _ => true
  | VString s => negb (String.eqb s "")
  | VArray _ | VObject _ => true
  end.

(** A mapping in the specification's sense: a plain object, neither an
    array nor [null]. *)
Definition is_mapping (v : jsvalue) : bool :=
  match v with VObject _ => true | _ => false end.

(** *** Properties of a plain object *)

Definition get_prop (entries : list (string * jsvalue)) (key : string)
  : option jsvalue :=
  option_map snd (find (fun kv => String.eqb (fst kv) key) entries).

(** [obj[key] = v]: an existing property keeps its place and takes the
    new value, a new property is added after the others. *)
Fixpoint set_prop {A : Type} (entries : list (string * A)) (key : string) (v : A)
  : list (string * A) :=
  match entries with
  | [] => [(key, v)]
  | (k, w) :: rest =>
      if String.eqb k key then (k, v) :: rest
      else (k, w) :: set_prop rest key v
  end.

(** [obj[key] = v] on an object that inherits from [Object.prototype]:
    [__proto__] names an accessor of the prototype, and assigning to it
    creates no own property, whatever the value. *)
Definition assign_prop {A : Type} (entries : list (string * A)) (key : string) (v : A)
  : list (string * A) :=
  if String.eqb key "__proto__" then entries else set_prop entries key v.

(** *** Strings *)

(** WhiteSpace and LineTerminator code units below 256: TAB, LF, VT, FF,
    CR, SP and NBSP. *)
Definition is_white_space (c : ascii) : bool :=
  match nat_of_ascii c with
  | 9 | 10 | 11 | 12 | 13 | 32 | 160 => true
  | _ => false
  end.

Fixpoint trimStart (s : string) : string :=
  match s with
  | EmptyString => EmptyString
  | String c rest => if is_white_space c then trimStart rest else s
  end.

Fixpoint trimEnd (s : string) : string :=
  match s with
  | EmptyString => EmptyString
  | String c rest =>
      match trimEnd rest with
      | EmptyString => if is_white_space c then EmptyString else String c EmptyString
      | kept => String c kept
      end
  end.

(** [s.trim()] *)
Definition trim (s : string) : string := trimEnd (trimStart s).

(** No white space at either end. *)
Definition starts_with_space (s : string) : bool :=
  match s with
  | EmptyString => false
  | String c _ => is_white_space c
  end.

Fixpoint ends_with_space (s : string) : bool :=
  match s with
  | EmptyString => false
  | String c EmptyString => is_white_space c
  | String _ rest => ends_with_space rest
  end.

Definition trimmed (s : string) : bool :=
  negb (starts_with_space s) && negb (ends_with_space s).

(** Lower-casing of a code unit below 256: A-Z and the accented capitals
    0xC0-0xDE (0xD7, the multiplication sign, excepted) move up by 32. *)
Definition lower_char (c : ascii) : ascii :=
  let n := nat_of_ascii c in
  if (((65 <=? n) && (n <=? 90))
      || ((192 <=? n) && (n <=? 222) && negb (n =? 215)))%nat
  then ascii_of_nat (n + 32)
  else c.

(** [s.toLowerCase()] *)
Fixpoint toLowerCase (s : string) : string :=
  match s with
  | EmptyString => EmptyString
  | String c rest => String (lower_char c) (toLowerCase rest)
  end.

(** [s.includes(needle)] *)
Fixpoint includes (s needle : string) : bool :=
  String.prefix needle s
  || match s with
     | EmptyString => false
     | String _ rest => includes rest needle
     end.

(** Decimal rendering of a length or a counter in a template literal. *)
Definition string_of_nat (n : nat) : string :=
  NilEmpty.string_of_uint (Nat.to_uint n).

End Js.

Import Js.

(* ================================================================== *)
(** ** The normalizer *)

(** [normalizeBoolean(value)] *)
Definition normalizeBoolean (value : jsvalue) : bool :=
  match value with
  | VBool b => b
  | VString s =>
      let normalized := trim (toLowerCase s) in
      String.eqb normalized "true" || String.eqb normalized "yes"
      || String.eqb normalized "1"
  | _ => false
  end.

(** The branches of the per-value [if]/[else if] chain of
    [normalizeData], in source order. *)
Inductive branch : Type :=
| SkipEmpty      (* value === null || value === undefined || value === '' *)
| TrimString     (* typeof value === 'string' *)
| BooleanString  (* typeof value === 'string' && (true|false|yes|no) *)
| Recurse        (* typeof value === 'object' *)
| KeepAsIs.      (* else *)

(** The second test on strings, [value.toLowerCase() === w] for one of the
    four words. *)
Definition boolean_looking (value : jsvalue) : bool :=
  match value with
  | VString s =>
      String.eqb (toLowerCase s) "true" || String.eqb (toLowerCase s) "false"
      || String.eqb (toLowerCase s) "yes" || String.eqb (toLowerCase s) "no"
  | _ => false
  end.

(** Which branch the chain takes for a property value. *)
Definition dispatch (value : jsvalue) : branch :=
  if is_null value || is_undefined value || strict_eq_string value "" then SkipEmpty
  else if String.eqb (typeof value) "string" then TrimString
  else if String.eqb (typeof value) "string" && boolean_looking value then BooleanString
  else if String.eqb (typeof value) "object" then Recurse
  else KeepAsIs.

Definition string_of_value (v : jsvalue) : string :=
  match v with VString s => s | _ => "" end.

(** [normalizeData(data)]. The loop over [Object.entries(data)] assigns
    into [normalized], which starts as [{}]. *)
Fixpoint normalizeData (data : jsvalue) : jsvalue :=
  match data with
  | VArray items => VArray (map normalizeData items)
  | VObject entries =>
      VObject
        ((fix loop (todo : list (string * jsvalue)) (normalized : list (string * jsvalue))
            : list (string * jsvalue) :=
            match todo with
            | [] => normalized
            | (key, value) :: rest =>
                loop rest
                  (assign_prop normalized key
                     match dispatch value with
                     | SkipEmpty => VString ""
                     | TrimString => VString (trim (string_of_value value))
                     | BooleanString => VBool (normalizeBoolean value)
                     | Recurse => normalizeData value
                     | KeepAsIs => value
                     end)
            end) entries [])
  | _ => data
  end.

(** The value stored for one property, and the loop, under their own
    names. *)
Definition normalizeValue (value : jsvalue) : jsvalue :=
  match dispatch value with
  | SkipEmpty => VString ""
  | TrimString => VString (trim (string_of_value value))
  | BooleanString => VBool (normalizeBoolean value)
  | Recurse => normalizeData value
  | KeepAsIs => value
  end.

Fixpoint normalizeEntries (todo normalized : list (string * jsvalue))
  : list (string * jsvalue) :=
  match todo with
  | [] => normalized
  | (key, value) :: rest =>
      normalizeEntries rest (assign_prop normalized key (normalizeValue value))
  end.

(** *** The NormalizedRecord invariant *)

(** As the data model words it: no [null] or [undefined] anywhere, and
    every string trimmed. *)
Fixpoint normalized_record (v : jsvalue) : bool :=
  match v with
  | VUndefined | VNull => false
  | VBool _ | VNumber _ => true
  | VString s => trimmed s
  | VArray items => forallb normalized_record items
  | VObject entries => forallb (fun kv => normalized_record (snd kv)) entries
  end.

(** What holds of a value stored under a key: it is not [null] or
    [undefined], and a string is trimmed. *)
Definition field_ok (v : jsvalue) : bool :=
  match v with
  | VUndefined | VNull => false
  | VString s => trimmed s
  | _ => true
  end.

(** Every property of every mapping inside [v] is [field_ok]; array
    elements and a top-level scalar are not constrained. *)
Fixpoint fields_clean (v : jsvalue) : bool :=
  match v with
  | VArray items => forallb fields_clean items
  | VObject entries =>
      forallb (fun kv => field_ok (snd kv) && fields_clean (snd kv)) entries
  | _ => true
  end.

(* ================================================================== *)
(** ** Effects: console, filesystem, requests, exceptions, exit *)

(** A path of the filesystem names a regular file or a directory. *)
Inductive node : Type :=
| File (content : string)
| Directory.

Inductive line : Type :=
| Out (text : string)     (* console.log *)
| Err (text : string).    (* console.error *)

Record world : Type := mkWorld {
  files : list (string * node);
  console : list line;          (* oldest first *)
  requests : list string        (* URLs requested so far, oldest first *)
}.

Inductive exn : Type :=
| Error (message : string)
| TypeError (message : string).

Definition message (e : exn) : string :=
  match e with Error m => m | TypeError m => m end.

Definition exn_name (e : exn) : string :=
  match e with Error _ => "Error" | TypeError _ => "TypeError" end.

(** How a computation ends. [Pending] is a promise that has not settled
    within the bound on redirect hops the model follows. *)
Inductive outcome (A : Type) : Type :=
| Returned (a : A)
| Thrown (e : exn)
| Exited (code : Z)       (* process.exit(code) *)
| Pending.

Arguments Returned {A} a.
Arguments Thrown {A} e.
Arguments Exited {A} code.
Arguments Pending {A}.

Definition M (A : Type) : Type := world -> outcome A * world.

Definition ret {A : Type} (a : A) : M A := fun w => (Returned a, w).

Definition bind {A B : Type} (m : M A) (k : A -> M B) : M B :=
  fun w =>
    match m w with
    | (Returned a, w') => k a w'
    | (Thrown e, w') => (Thrown e, w')
    | (Exited code, w') => (Exited code, w')
    | (Pending, w') => (Pending, w')
    end.

Definition throw {A : Type} (e : exn) : M A := fun w => (Thrown e, w).

Definition process_exit {A : Type} (code : Z) : M A := fun w => (Exited code, w).

(** [try { m } catch (error) { handler error }]: only an exception is
    caught. *)
Definition try_catch {A : Type} (m : M A) (handler : exn -> M A) : M A :=
  fun w =>
    match m w with
    | (Thrown e, w') => handler e w'
    | other => other
    end.

Declare Scope js_scope.
Delimit Scope js_scope with js.
Notation "x <- m ;; k" := (bind m (fun x => k))
  (at level 61, m at next level, right associativity) : js_scope.
Notation "m ;; k" := (bind m (fun _ => k))
  (at level 61, right associativity) : js_scope.
Local Open Scope js_scope.

Definition console_log (text : string) : M unit :=
  fun w => (Returned tt,
            mkWorld (files w) (console w ++ [Out text]) (requests w)).

Definition console_error (text : string) : M unit :=
  fun w => (Returned tt,
            mkWorld (files w) (console w ++ [Err text]) (requests w)).

(** [if (c) { m }] *)
Definition when (c : bool) (m : M unit) : M unit := if c then m else ret tt.

(** A computation that leaves the files alone and whose outcome, console
    lines and requests do not depend on the world it starts from. *)
Definition quiet {A : Type} (m : M A) : Prop :=
  exists (o : outcome A) (logs : list line) (reqs : list string),
    forall w, m w = (o, mkWorld (files w) (console w ++ logs) (requests w ++ reqs)).

(** A computation whose outcome and whose effect on the files depend on
    the files only. *)
Definition files_only {A : Type} (m : M A) : Prop :=
  forall w w',
    files w = files w' ->
    fst (m w) = fst (m w') /\ files (snd (m w)) = files (snd (m w')).

(** A computation that returns or throws: it neither ends the process nor
    stays pending. *)
Definition settled {A : Type} (o : outcome A) : Prop :=
  match o with
  | Returned _ | Thrown _ => True
  | Exited _ | Pending => False
  end.

(** *** Paths: [path.join], [path.dirname], [path.basename] (POSIX) *)

Definition is_separator (c : ascii) : bool := Ascii.eqb c "/".

Definition ends_with_separator (p : string) : bool :=
  match List.rev (list_ascii_of_string p) with
  | c :: _ => is_separator c
  | [] => false
  end.

(** The segments between the separators of a path. *)
Fixpoint split_segments (chars current : list ascii) : list string :=
  match chars with
  | [] => [string_of_list_ascii (List.rev current)]
  | c :: rest =>
      if is_separator c
      then string_of_list_ascii (List.rev current) :: split_segments rest []
      else split_segments rest (c :: current)
  end.

(** One step of [normalizeString]: empty segments and [.] are dropped,
    [..] removes the segment before it, or stays when there is none to
    remove and the path is relative. [stack] holds the segments kept so
    far, last first. *)
Definition push_segment (allowAboveRoot : bool) (stack : list string) (segment : string)
  : list string :=
  if String.eqb segment "" || String.eqb segment "." then stack
  else if String.eqb segment ".." then
    match stack with
    | top :: below =>
        if String.eqb top ".."
        then (if allowAboveRoot then segment :: stack else stack)
        else below
    | [] => if allowAboveRoot then [segment] else []
    end
  else segment :: stack.

Definition normalizeString (p : string) (allowAboveRoot : bool) : string :=
  String.concat "/"
    (List.rev (fold_left (push_segment allowAboveRoot)
            (split_segments (list_ascii_of_string p) []) [])).

(** [path.normalize(p)] *)
Definition path_normalize (p : string) : string :=
  match p with
  | EmptyString => "."
  | String first _ =>
      let isAbsolute := is_separator first in
      let trailingSeparator := ends_with_separator p in
      let body := normalizeString p (negb isAbsolute) in
      if String.eqb body "" then
        if isAbsolute then "/" else if trailingSeparator then "./" else "."
      else
        (if isAbsolute then "/" else "") ++ body
        ++ (if trailingSeparator then "/" else "")
  end.

(** [path.join(a, b)] *)
Definition path_join (a b : string) : string :=
  let joined :=
    if String.eqb a "" then b
    else if String.eqb b "" then a
    else a ++ "/" ++ b in
  if String.eqb joined "" then "." else path_normalize joined.

(** The scans of [dirname] and [basename] run from the end of the path:
    these work on the reversed characters. *)
Fixpoint drop_separators (chars : list ascii) : list ascii :=
  match chars with
  | [] => []
  | c :: rest => if is_separator c then drop_separators rest else chars
  end.

Fixpoint after_separator (chars : list ascii) : option (list ascii) :=
  match chars with
  | [] => None
  | c :: rest => if is_separator c then Some rest else after_separator rest
  end.

Fixpoint before_separator (chars : list ascii) : list ascii :=
  match chars with
  | [] => []
  | c :: rest => if is_separator c then [] else c :: before_separator rest
  end.

(** [path.dirname(p)]: the scan stops before the first character, which
    decides between [/] and [.] when no separator is found. *)
Definition path_dirname (p : string) : string :=
  match list_ascii_of_string p with
  | [] => "."
  | first :: rest =>
      match after_separator (drop_separators (List.rev rest)) with
      | None => if is_separator first then "/" else "."
      | Some [] => if is_separator first then "//" else String first EmptyString
      | Some before => string_of_list_ascii (first :: List.rev before)
      end
  end.

(** [path.basename(p)] *)
Definition path_basename (p : string) : string :=
  string_of_list_ascii
    (List.rev (before_separator (drop_separators (List.rev (list_ascii_of_string p))))).

(** The directories on the way to [p], outermost first, [p] last. *)
Fixpoint prefixes_from (seen rest : string) : list string :=
  match rest with
  | EmptyString => if String.eqb seen "" then [] else [seen]
  | String c rest' =>
      if is_separator c
      then (if String.eqb seen "" then [] else [seen])
           ++ prefixes_from (seen ++ "/") rest'
      else prefixes_from (seen ++ String c EmptyString) rest'
  end.

Definition path_prefixes (p : string) : list string := prefixes_from "" p.

(** *** The filesystem: [fs.existsSync], [fs.mkdirSync], [fs.copyFileSync],
    [fs.writeFileSync]

    A table from paths to regular files and directories. A file is
    created or replaced only in a directory that exists. An operation
    fails for the shape of the tree only: permissions, links and the
    space left on the device are not modelled, and an operation that
    fails changes nothing. *)

Module Fs.

Definition lookup (fs : list (string * node)) (p : string) : option node :=
  option_map snd (find (fun kv => String.eqb (fst kv) p) fs).

Definition with_files (w : world) (fs : list (string * node)) : world :=
  mkWorld fs (console w) (requests w).

Definition existsSync (p : string) (w : world) : bool :=
  match lookup (files w) p with Some _ => true | None => false end.

(** [fs.mkdirSync(dir, { recursive: true })]: every directory on the way
    to [dir] that is missing is created, outermost first; a regular file
    on the way, or at [dir], is an error. *)
Fixpoint make_directories (dir : string) (todo : list string) : M unit :=
  match todo with
  | [] => ret tt
  | p :: rest =>
      fun w =>
        match lookup (files w) p with
        | Some (File _) =>
            (Thrown (Error ((if String.eqb p dir
                             then "EEXIST: file already exists"
                             else "ENOTDIR: not a directory")
                            ++ ", mkdir '" ++ dir ++ "'")), w)
        | Some Directory => make_directories dir rest w
        | None =>
            make_directories dir rest (with_files w (set_prop (files w) p Directory))
        end
  end.

Definition mkdirSync (dir : string) : M unit :=
  make_directories dir (path_prefixes dir).

(** Why a file cannot be opened for writing at [p], if it cannot: [p]
    ends with a separator or names a directory, or the directory of [p]
    is missing or is a regular file. *)
Definition write_error (fs : list (string * node)) (p : string) : option string :=
  if ends_with_separator p then Some "EISDIR: illegal operation on a directory"
  else
    match lookup fs (path_dirname p) with
    | None => Some "ENOENT: no such file or directory"
    | Some (File _) => Some "ENOTDIR: not a directory"
    | Some Directory =>
        match lookup fs p with
        | Some Directory => Some "EISDIR: illegal operation on a directory"
        | _ => None
        end
    end.

Definition copyFileSync (src dest : string) : M unit :=
  fun w =>
    let operation := ", copyfile '" ++ src ++ "' -> '" ++ dest ++ "'" in
    match lookup (files w) src with
    | None => (Thrown (Error ("ENOENT: no such file or directory" ++ operation)), w)
    | Some Directory =>
        (Thrown (Error ("EISDIR: illegal operation on a directory" ++ operation)), w)
    | Some (File content) =>
        match write_error (files w) dest with
        | Some reason => (Thrown (Error (reason ++ operation)), w)
        | None => (Returned tt, with_files w (set_prop (files w) dest (File content)))
        end
    end.

Definition writeFileSync (p data : string) : M unit :=
  fun w =>
    match write_error (files w) p with
    | Some reason => (Thrown (Error (reason ++ ", open '" ++ p ++ "'")), w)
    | None => (Returned tt, with_files w (set_prop (files w) p (File data)))
    end.

End Fs.

(* ================================================================== *)
(** ** Configuration: [sheets-config.json] *)

Module Cfg.

Record SheetConfig : Type := mkSheet {
  jsonUrl : option string;      (* [None]: the field is missing *)
  outputPath : string;
  description : string
}.

Record Options : Type := mkOptions {
  backupBeforeSync : option bool;
  validateData : option bool
}.

Record Config : Type := mkConfig {
  sheets : list (string * SheetConfig);
  options : option Options
}.

(** [config.options?.field], read as a condition. *)
Definition enabled (config : Config) (field : Options -> option bool) : bool :=
  match options config with
  | Some o => match field o with Some b => b | None => false end
  | None => false
  end.

(** The properties every object inherits from [Object.prototype]. *)
Definition object_prototype_members : list string :=
  ["constructor"; "__defineGetter__"; "__defineSetter__"; "hasOwnProperty";
   "__lookupGetter__"; "__lookupSetter__"; "isPrototypeOf";
   "propertyIsEnumerable"; "toString"; "valueOf"; "__proto__"; "toLocaleString"].

(** A member of [Object.prototype] read as a sheet configuration: a
    function, or the prototype itself, on which [jsonUrl] is undefined.
    No other field of it is ever read. *)
Definition inherited_member : SheetConfig := mkSheet None "" "".

(** [config.sheets[name]]: an own property of [config.sheets], or else
    what the prototype has under that name. *)
Definition get_sheet (config : Config) (name : string) : option SheetConfig :=
  match find (fun kv => String.eqb (fst kv) name) (sheets config) with
  | Some kv => Some (snd kv)
  | None =>
      if existsb (String.eqb name) object_prototype_members
      then Some inherited_member
      else None
  end.

End Cfg.

(** What the network answers to a GET: a response, whose body is given by
    what [JSON.parse] makes of it, or an ['error'] event on the request. *)
Inductive parsed : Type :=
| Json (json : jsvalue)
| SyntaxError (message : string).

Inductive response : Type :=
| Response (statusCode : nat) (statusMessage : string)
           (location : option string) (body : parsed)
| RequestError (message : string).

(** One result of [syncSheet]: [{ success: true, count }] or
    [{ success: false, error }]. *)
Inductive SyncResult : Type :=
| Synced (count : nat)
| Failed (error : string).


Ltac distinct_keys :=
  cbn;
  repeat (constructor;
          [ let H := fresh in
            intro H; cbn in H;
            repeat (destruct H as [H|H]; [discriminate H|]); exact H
          | ]);
  constructor.

(* ================================================================== *)
(** ** The script *)

Section Script.

(** The configuration loaded at start-up, the working directory, the
    network, and the serializer of the [yaml] package. *)
Variable config : Cfg.Config.
Variable cwd : string.
Variable network : string -> response.
Variable YAML_stringify : jsvalue -> string.

(** The text a template literal gives for a value, [ToString] of the
    language, or the [TypeError] it throws on an object that cannot be
    converted. *)
Variable ToString : jsvalue -> exn + string.

Definition dquote : string := String (ascii_of_nat 34) EmptyString.

Definition request (url : string) : M unit :=
  fun w => (Returned tt, mkWorld (files w) (console w) (requests w ++ [url])).

(** [fetchJson(url)], awaited. [hops] bounds the redirects followed; the
    choice between [http] and [https] is part of what [network] answers. *)
Fixpoint fetchJson (hops : nat) (url : option string) : M jsvalue :=
  match url with
  | None =>
      throw (TypeError "Cannot read properties of undefined (reading 'startsWith')")
  | Some u =>
      request u ;;
      match network u with
      | RequestError msg => throw (Error msg)
      | Response statusCode statusMessage location body =>
          if (statusCode =? 302)%nat || (statusCode =? 301)%nat then
            match hops with
            | O => fun w => (Pending, w)
            | S hops' => fetchJson hops' location
            end
          else if negb (statusCode =? 200)%nat then
            throw (Error ("HTTP " ++ string_of_nat statusCode ++ ": " ++ statusMessage))
          else
            match body with
            | Json json => ret json
            | SyntaxError msg => throw (Error ("Invalid JSON: " ++ msg))
            end
      end
  end.

(** [typeof item !== 'object' || item === null] *)
Definition invalid_item (item : jsvalue) : bool :=
  negb (String.eqb (typeof item) "object") || is_null item.

(** [validateData(sheetName, data)] *)
Definition validateData (sheetName : string) (data : jsvalue) : M bool :=
  match data with
  | VArray items =>
      if (List.length items =? 0)%nat then
        console_log ("Warning: " ++ sheetName ++ " has no data") ;;
        ret true
      else
        let invalidItems := filter invalid_item items in
        if (0 <? List.length invalidItems)%nat then
          throw (Error (sheetName ++ " contains "
                        ++ string_of_nat (List.length invalidItems) ++ " invalid items"))
        else ret true
  | _ => throw (Error ("Data for " ++ sheetName ++ " is not an array"))
  end.

(** [`${data.length}`]: reading [length] of [null] or [undefined] throws;
    an array and a string have a length; an object has what it holds
    under the key [length]; anything else gives [undefined]. *)
Definition length_text (data : jsvalue) : exn + string :=
  match data with
  | VUndefined =>
      inl (TypeError "Cannot read properties of undefined (reading 'length')")
  | VNull => inl (TypeError "Cannot read properties of null (reading 'length')")
  | VArray items => inr (string_of_nat (List.length items))
  | VString s => inr (string_of_nat (String.length s))
  | VObject entries =>
      match get_prop entries "length" with
      | Some v => ToString v
      | None => inr "undefined"
      end
  | VBool _ | VNumber _ => inr "undefined"
  end.

(** What [fs.writeFileSync] says of data that is no string:
    [YAML.stringify(undefined, yamlOptions)] is [undefined], which
    [writeFileSync] rejects before it opens the file. *)
Definition not_a_string : string :=
  "The " ++ dquote ++ "data" ++ dquote
  ++ " argument must be of type string or an instance of Buffer, TypedArray,"
  ++ " or DataView. Received undefined".

(** [writeYamlFile(data, outputPath)] *)
Definition writeYamlFile (data : jsvalue) (outputPath : string) : M bool :=
  try_catch
    (let fullPath := path_join cwd outputPath in
     let dir := path_dirname fullPath in
     (fun w => when (negb (Fs.existsSync dir w)) (Fs.mkdirSync dir) w) ;;
     (fun w =>
        when (Fs.existsSync fullPath w && Cfg.enabled config Cfg.backupBeforeSync)
          (let backupPath := fullPath ++ ".backup" in
           Fs.copyFileSync fullPath backupPath ;;
           console_log ("  Created backup: " ++ path_basename backupPath)) w) ;;
     match data with
     | VUndefined => throw (TypeError not_a_string)
     | _ =>
         let yamlContent := YAML_stringify data in
         Fs.writeFileSync fullPath yamlContent
     end ;;
     match length_text data with
     | inl error => throw error
     | inr text => console_log ("  Wrote " ++ text ++ " records to " ++ outputPath)
     end ;;
     ret true)
    (fun error =>
       console_error ("  Error writing YAML file: " ++ message error) ;;
       throw error).

(** [fetchSheetData(sheetConfig)] *)
Definition fetchSheetData (hops : nat) (sheetConfig : Cfg.SheetConfig) : M jsvalue :=
  try_catch
    (console_log "  Fetching JSON from URL..." ;;
     data <- fetchJson hops (Cfg.jsonUrl sheetConfig) ;;
     if negb (truthy data)
        || (isArray data
            && match data with VArray items => (List.length items =? 0)%nat | _ => false end)
     then
       console_log "  No data found" ;;
       ret (VArray [])
     else
       console_log ("  Fetched "
                    ++ match data with
                       | VArray items => string_of_nat (List.length items)
                       | _ => "1"
                       end
                    ++ " record(s)") ;;
       ret data)
    (fun error =>
       console_error ("  Error fetching data: " ++ message error) ;;
       throw error).

(** [Array.isArray(normalizedData) ? normalizedData.length : 1] *)
Definition record_count (normalizedData : jsvalue) : nat :=
  match normalizedData with
  | VArray items => List.length items
  | _ => 1
  end.

(** The [try] block of [syncSheet]: fetch, normalize, validate if
    configured, write. *)
Definition sync_stages (hops : nat) (sheetName : string)
  (sheetConfig : Cfg.SheetConfig) : M SyncResult :=
  rawData <- fetchSheetData hops sheetConfig ;;
  let normalizedData := normalizeData rawData in
  (if Cfg.enabled config Cfg.validateData
   then validateData sheetName normalizedData
   else ret true) ;;
  writeYamlFile normalizedData (Cfg.outputPath sheetConfig) ;;
  ret (Synced (record_count normalizedData)).

(** [syncSheet(sheetName, sheetConfig)] *)
Definition syncSheet (hops : nat) (sheetName : string)
  (sheetConfig : option Cfg.SheetConfig) : M SyncResult :=
  console_log ("Syncing " ++ sheetName ++ "...") ;;
  match sheetConfig with
  | None =>
      throw (TypeError "Cannot read properties of undefined (reading 'description')")
  | Some sheetConfig =>
      console_log ("   " ++ Cfg.description sheetConfig) ;;
      try_catch
        (sync_stages hops sheetName sheetConfig)
        (fun error =>
           console_error ("  Failed to sync " ++ sheetName ++ ": " ++ message error) ;;
           ret (Failed (message error)))
  end.

(** [main()]: the source names to process, each with its entry of
    [config.sheets]; a name given on the command line comes with whatever
    [config.sheets[targetSheet]] yields. *)
Definition sheets_to_sync (targetSheet : option string)
  : list (string * option Cfg.SheetConfig) :=
  match targetSheet with
  | Some name =>
      if negb (String.eqb name "")
      then [(name, Cfg.get_sheet config name)]
      else map (fun kv => (fst kv, Some (snd kv))) (Cfg.sheets config)
  | None => map (fun kv => (fst kv, Some (snd kv))) (Cfg.sheets config)
  end.

Definition target_text (targetSheet : option string) : string :=
  match targetSheet with Some name => name | None => "undefined" end.

(** [!sheetConfig.jsonUrl || sheetConfig.jsonUrl.includes('YOUR_')] *)
Definition url_not_configured (sheetConfig : Cfg.SheetConfig) : bool :=
  match Cfg.jsonUrl sheetConfig with
  | None => true
  | Some url => String.eqb url "" || includes url "YOUR_"
  end.

Fixpoint validate_urls (todo : list (string * option Cfg.SheetConfig)) : M unit :=
  match todo with
  | [] => ret tt
  | (name, sheetConfig) :: rest =>
      match sheetConfig with
      | None =>
          throw (TypeError "Cannot read properties of undefined (reading 'jsonUrl')")
      | Some sheetConfig =>
          when (url_not_configured sheetConfig)
            (console_error ("Error: JSON URL not configured for "
                            ++ dquote ++ name ++ dquote) ;;
             console_error
               "   Please update scripts/sheets-config.json with your actual JSON export URL" ;;
             process_exit 1%Z) ;;
          validate_urls rest
      end
  end.

Fixpoint sync_each (hops : nat) (todo : list (string * option Cfg.SheetConfig))
  (results : list (string * SyncResult)) : M (list (string * SyncResult)) :=
  match todo with
  | [] => ret results
  | (sheetName, sheetConfig) :: rest =>
      result <- syncSheet hops sheetName sheetConfig ;;
      sync_each hops rest (assign_prop results sheetName result)
  end.

Record totals : Type := mkTotals {
  totalSuccess : nat;
  totalFailed : nat;
  totalRecords : nat
}.

Fixpoint print_summary (todo : list (string * SyncResult)) (t : totals) : M totals :=
  match todo with
  | [] => ret t
  | (sheetName, result) :: rest =>
      match result with
      | Synced count =>
          console_log (sheetName ++ ": " ++ string_of_nat count ++ " records synced") ;;
          print_summary rest
            (mkTotals (S (totalSuccess t)) (totalFailed t) (totalRecords t + count))
      | Failed error =>
          console_log (sheetName ++ ": Failed - " ++ error) ;;
          print_summary rest
            (mkTotals (totalSuccess t) (S (totalFailed t)) (totalRecords t))
      end
  end.

Definition summary_rule : string := "=======================================".

Definition main (hops : nat) (targetSheet : option string) : M unit :=
  console_log "Starting Google Sheets JSON to YAML sync..." ;;
  let sheetsToSync := sheets_to_sync targetSheet in
  when (List.length sheetsToSync =? 0)%nat
    (console_error ("Error: Sheet " ++ dquote ++ target_text targetSheet ++ dquote
                    ++ " not found in config") ;;
     console_error ("Available sheets: "
                    ++ String.concat ", " (map fst (Cfg.sheets config))) ;;
     process_exit 1%Z) ;;
  validate_urls sheetsToSync ;;
  results <- sync_each hops sheetsToSync [] ;;
  console_log "Sync Summary:" ;;
  console_log summary_rule ;;
  t <- print_summary results (mkTotals 0 0 0) ;;
  console_log summary_rule ;;
  console_log ("Total: " ++ string_of_nat (totalRecords t) ++ " records, "
               ++ string_of_nat (totalSuccess t) ++ " succeeded, "
               ++ string_of_nat (totalFailed t) ++ " failed") ;;
  when (0 <? totalFailed t)%nat (process_exit 1%Z) ;;
  console_log "Sync completed successfully!" ;;
  process_exit 0%Z.

(** [main().catch(error => { ...; process.exit(1) })]: the whole run. *)
Definition run (hops : nat) (targetSheet : option string) : M unit :=
  try_catch (main hops targetSheet)
    (fun error =>
       console_error ("Unexpected error: " ++ exn_name error ++ ": " ++ message error) ;;
       process_exit 1%Z).



(** What a directory-making step may change: at every path the table is
    as before, or a directory has been put where nothing was, on the way
    to [dir]. *)
Definition only_directories_added (dir : string) (before after : list (string * node))
  : Prop :=
  forall q,
    Fs.lookup after q = Fs.lookup before q
    \/ (Fs.lookup before q = None
        /\ Fs.lookup after q = Some Directory
        /\ In q (path_prefixes dir)).

(** The backup step of [writeYamlFile] on the table [before]: nothing,
    when backups are off or nothing is at the target, or else the file
    at the target copied to the backup path. *)
Definition backup_made (fullPath : string) (before after : list (string * node))
  : Prop :=
  (after = before
   /\ (Cfg.enabled config Cfg.backupBeforeSync = false
       \/ Fs.lookup before fullPath = None))
  \/ (exists content,
        Cfg.enabled config Cfg.backupBeforeSync = true
        /\ Fs.lookup before fullPath = Some (File content)
        /\ after = set_prop before (fullPath ++ ".backup") (File content)).

(** ** Well-formed data and totals *)

(** No string occurs twice. *)
Fixpoint distinct (names : list string) : bool :=
  match names with
  | [] => true
  | name :: rest => negb (existsb (String.eqb name) rest) && distinct rest
  end.

(** Every object inside [v] has distinct keys, as every object that
    [JSON.parse] builds has. *)
Fixpoint keys_distinct (v : jsvalue) : bool :=
  match v with
  | VArray items => forallb keys_distinct items
  | VObject entries =>
      distinct (map fst entries)
      && forallb (fun kv => keys_distinct (snd kv)) entries
  | _ => true
  end.

(** No object inside [v] has a property named [__proto__]. *)
Fixpoint keys_plain (v : jsvalue) : bool :=
  match v with
  | VArray items => forallb keys_plain items
  | VObject entries =>
      forallb (fun kv => negb (String.eqb (fst kv) "__proto__") && keys_plain (snd kv))
        entries
  | _ => true
  end.

(** The records of the successful results. *)
Fixpoint synced_records (results : list (string * SyncResult)) : nat :=
  match results with
  | [] => 0
  | (_, Synced count) :: rest => count + synced_records rest
  | (_, Failed _) :: rest => synced_records rest
  end.

(** ** A sample installation

    Three sources, a network that redirects the first to a JSON array of
    two records, answers the second with a JSON object, the third with
    [null] and anything else with 404, and a stand-in for the YAML
    serializer. *)

Definition sample_board : jsvalue :=
  VArray [VObject [("name", VString "  Jane  "); ("elected", VString "true")];
          VObject [("name", VString "John"); ("elected", VNull)]].

Definition sample_settings : jsvalue :=
  VObject [("title", VString " PTSA "); ("year", VNumber (S754_finite false 2025 0))].

Definition sample_config : Cfg.Config :=
  Cfg.mkConfig
    [("board", Cfg.mkSheet (Some "https://sheets.example/board")
                 "data/board/members.yaml" "Board members data");
     ("settings", Cfg.mkSheet (Some "https://sheets.example/settings")
                    "data/settings.yaml" "Site settings");
     ("events", Cfg.mkSheet (Some "https://sheets.example/events")
                  "data/events/upcoming.yaml" "Upcoming PTSA events")]
    (Some (Cfg.mkOptions (Some true) (Some true))).

Definition sample_config_unchecked : Cfg.Config :=
  Cfg.mkConfig (Cfg.sheets sample_config) None.

Definition sample_config_placeholder : Cfg.Config :=
  Cfg.mkConfig
    [("board", Cfg.mkSheet (Some "https://sheets.example/board")
                 "data/board/members.yaml" "Board members data");
     ("staff", Cfg.mkSheet (Some "https://script.google.com/macros/s/YOUR_SCRIPT_ID/exec")
                 "data/staff/favorites.yaml" "Staff favorite things")]
    None.

Definition sample_network (url : string) : response :=
  if String.eqb url "https://sheets.example/board"
  then Response 302 "Found" (Some "https://cdn.example/board.json")
         (SyntaxError "Unexpected token < in JSON at position 0")
  else if String.eqb url "https://cdn.example/board.json"
  then Response 200 "OK" None (Json sample_board)
  else if String.eqb url "https://sheets.example/settings"
  then Response 200 "OK" None (Json sample_settings)
  else if String.eqb url "https://sheets.example/events"
  then Response 200 "OK" None (Json VNull)
  else Response 404 "Not Found" None
         (SyntaxError "Unexpected token N in JSON at position 0").

(** A network on which every URL redirects to itself. *)
Definition sample_network_loop (url : string) : response :=
  Response 302 "Found" (Some url) (SyntaxError "Unexpected end of JSON input").

Definition sample_stringify (data : jsvalue) : string :=
  match data with
  | VArray items => "# " ++ string_of_nat (List.length items) ++ " records"
  | _ => "# one value"
  end.

(** A stand-in for the conversion to a string that a template applies to
    a [length] property. *)
Definition sample_ToString (v : jsvalue) : exn + string :=
  match v with
  | VString s => inr s
  | VBool true => inr "true"
  | VBool false => inr "false"
  | VNull => inr "null"
  | VUndefined => inr "undefined"
  | VNumber _ => inr "0"
  | VArray _ => inr ""
  | VObject _ => inr "[object Object]"
  end.

Definition sample_world : world :=
  mkWorld [("/repo", Directory);
           ("/repo/data", Directory);
           ("/repo/data/board", Directory);
           ("/repo/data/board/members.yaml", File "- name: Old")]
          [] [].


Definition board_sheet : Cfg.SheetConfig :=
  Cfg.mkSheet (Some "https://sheets.example/board")
    "data/board/members.yaml" "Board members data".

Definition settings_sheet : Cfg.SheetConfig :=
  Cfg.mkSheet (Some "https://sheets.example/settings")
    "data/settings.yaml" "Site settings".

Definition events_sheet : Cfg.SheetConfig :=
  Cfg.mkSheet (Some "https://sheets.example/events")
    "data/events/upcoming.yaml" "Upcoming PTSA events".

Definition missing_sheet : Cfg.SheetConfig :=
  Cfg.mkSheet (Some "https://sheets.example/missing")
    "data/missing.yaml" "A sheet that is gone".

Definition member : list (string * jsvalue) :=
  [("name", VString "  Jane  "); ("elected", VBool false);
   ("bio", VString "   "); ("photo", VNull)].

(** A world in which a directory sits where the settings file belongs. *)
Definition sample_world_blocked : world :=
  mkWorld [("/repo", Directory);
           ("/repo/data", Directory);
           ("/repo/data/settings.yaml", Directory)] [] [].

(* ================================================================== *)
(** * Properties *)

(** A proof depends on the parts of the installation its statement names,
    and on no other. *)
#[local] Set Default Proof Using "Type".

(** ** Strings *)

Lemma trimStart_clean s : starts_with_space (trimStart s) = false.
Proof.
  induction s as [|c rest IH]; cbn [trimStart].
  - reflexivity.
  - destruct (is_white_space c) eqn:Hc; [exact IH | cbn; exact Hc].
Qed.

Lemma trimEnd_clean s : ends_with_space (trimEnd s) = false.
Proof.
  induction s as [|c rest IH]; cbn [trimEnd].
  - reflexivity.
  - destruct (trimEnd rest) as [|d kept] eqn:Hrest.
    + destruct (is_white_space c) eqn:Hc; cbn; [reflexivity | exact Hc].
    + cbn [ends_with_space]. exact IH.
Qed.

Lemma trimEnd_keeps_start s :
  starts_with_space s = false -> starts_with_space (trimEnd s) = false.
Proof.
  destruct s as [|c rest]; [reflexivity|]. cbn [starts_with_space trimEnd].
  intro Hc. destruct (trimEnd rest); rewrite ?Hc; cbn; auto.
Qed.

Lemma trimStart_fixed s : starts_with_space s = false -> trimStart s = s.
Proof.
  destruct s as [|c rest]; [reflexivity|]. cbn. intros ->. reflexivity.
Qed.

Lemma trimEnd_fixed s : ends_with_space s = false -> trimEnd s = s.
Proof.
  induction s as [|c rest IH]; [reflexivity|].
  cbn [ends_with_space trimEnd]. destruct rest as [|d rest'].
  - intros ->. reflexivity.
  - intro H. rewrite (IH H). reflexivity.
Qed.

Lemma trim_trimmed s : trimmed (trim s) = true.
Proof.
  unfold trimmed, trim.
  rewrite trimEnd_clean, (trimEnd_keeps_start _ (trimStart_clean s)). reflexivity.
Qed.

Lemma trimmed_fixed s : trimmed s = true -> trim s = s.
Proof.
  unfold trimmed, trim. intro H. apply andb_true_iff in H as [H1 H2].
  apply negb_true_iff in H1, H2.
  rewrite (trimStart_fixed _ H1). apply trimEnd_fixed, H2.
Qed.

Lemma trim_idempotent s : trim (trim s) = trim s.
Proof. apply trimmed_fixed, trim_trimmed. Qed.

Lemma length_append (s t : string) :
  String.length (s ++ t) = String.length s + String.length t.
Proof. induction s as [|c s IH]; cbn; [reflexivity | now rewrite IH]. Qed.

Lemma append_differs (s t : string) : t <> "" -> s ++ t <> s.
Proof.
  intros Ht E. apply (f_equal String.length) in E. rewrite length_append in E.
  destruct t; [congruence | cbn in E; lia].
Qed.

(** ** Paths *)

Lemma length_string_of_list_ascii chars :
  String.length (string_of_list_ascii chars) = List.length chars.
Proof. induction chars as [|c rest IH]; cbn; [reflexivity | now rewrite IH]. Qed.

Lemma length_list_ascii_of_string p :
  List.length (list_ascii_of_string p) = String.length p.
Proof. induction p as [|c rest IH]; cbn; [reflexivity | now rewrite IH]. Qed.

Lemma length_drop_separators chars :
  List.length (drop_separators chars) <= List.length chars.
Proof.
  induction chars as [|c rest IH]; cbn; [apply le_n|].
  destruct (is_separator c); cbn; lia.
Qed.

Lemma length_after_separator chars before :
  after_separator chars = Some before -> List.length before < List.length chars.
Proof.
  revert before. induction chars as [|c rest IH]; cbn; intros before H; [discriminate|].
  destruct (is_separator c).
  - injection H as <-. lia.
  - specialize (IH _ H). lia.
Qed.

Lemma length_path_dirname p :
  String.length (path_dirname p) <= Nat.max 1 (String.length p).
Proof.
  unfold path_dirname. rewrite <- (length_list_ascii_of_string p).
  destruct (list_ascii_of_string p) as [|first rest]; [cbn; lia|].
  destruct (after_separator (drop_separators (List.rev rest))) as [before|] eqn:Hscan.
  - apply length_after_separator in Hscan.
    pose proof (length_drop_separators (List.rev rest)) as Hdrop.
    rewrite length_rev in Hdrop.
    destruct before as [|b before'].
    + destruct (is_separator first); cbn in *; lia.
    + rewrite length_string_of_list_ascii.
      change (List.length (first :: List.rev (b :: before')))
        with (S (List.length (List.rev (b :: before')))).
      rewrite length_rev. cbn [List.length] in *. lia.
  - destruct (is_separator first); cbn; lia.
Qed.

Lemma length_prefixes_from rest : forall seen q,
  In q (prefixes_from seen rest) ->
  String.length q <= String.length seen + String.length rest.
Proof.
  induction rest as [|c rest IH]; intros seen q; cbn [prefixes_from].
  - destruct (String.eqb seen ""); cbn; [intros [] | intros [<- | []]; lia].
  - destruct (is_separator c).
    + intro Hin. apply in_app_or in Hin as [Hin | Hin].
      * destruct (String.eqb seen ""); cbn in Hin; [destruct Hin|].
        destruct Hin as [<- | []]. cbn. lia.
      * specialize (IH _ _ Hin). rewrite length_append in IH. cbn in *. lia.
    + intro Hin. specialize (IH _ _ Hin). rewrite length_append in IH. cbn in *. lia.
Qed.

(** The backup of a file is none of the directories on the way to it. *)
Lemma backup_not_on_the_way p :
  ~ In (p ++ ".backup") (path_prefixes (path_dirname p)).
Proof.
  intro Hin. apply length_prefixes_from in Hin.
  pose proof (length_path_dirname p). rewrite length_append in Hin. cbn in Hin. lia.
Qed.

(** ** Properties of objects *)

Lemma normalizeData_object entries :
  normalizeData (VObject entries) = VObject (normalizeEntries entries []).
Proof. reflexivity. Qed.

Lemma normalizeData_array items :
  normalizeData (VArray items) = VArray (map normalizeData items).
Proof. reflexivity. Qed.

Lemma set_prop_fresh {A : Type} (entries : list (string * A)) key (v : A) :
  ~ In key (map fst entries) -> set_prop entries key v = (entries ++ [(key, v)])%list.
Proof.
  induction entries as [|[k w] rest IH]; cbn; intro Hfresh.
  - reflexivity.
  - destruct (String.eqb k key) eqn:E.
    + apply String.eqb_eq in E. exfalso. apply Hfresh. left. exact E.
    + rewrite IH by (intro Hin; apply Hfresh; right; exact Hin). reflexivity.
Qed.



Lemma set_prop_values {A : Type} (P : A -> Prop) (entries : list (string * A)) key v :
  Forall (fun kv => P (snd kv)) entries -> P v ->
  Forall (fun kv => P (snd kv)) (set_prop entries key v).
Proof.
  intros Hall Hv. induction entries as [|[k w] rest IH]; cbn.
  - repeat constructor. exact Hv.
  - inversion Hall as [|? ? Hw Hrest]; subst.
    destruct (String.eqb k key); constructor; auto.
Qed.


Lemma assign_prop_values {A : Type} (P : A -> Prop) (entries : list (string * A)) key v :
  Forall (fun kv => P (snd kv)) entries -> P v ->
  Forall (fun kv => P (snd kv)) (assign_prop entries key v).
Proof.
  unfold assign_prop. destruct (String.eqb key "__proto__"); [auto|].
  apply set_prop_values.
Qed.





Lemma normalizeEntries_values (P : jsvalue -> Prop) todo : forall normalized,
  Forall (fun kv => P (normalizeValue (snd kv))) todo ->
  Forall (fun kv => P (snd kv)) normalized ->
  Forall (fun kv => P (snd kv)) (normalizeEntries todo normalized).
Proof.
  induction todo as [|[key v] rest IH]; intros normalized Htodo Hacc; cbn.
  - exact Hacc.
  - inversion Htodo; subst. apply IH; [assumption|].
    apply assign_prop_values; assumption.
Qed.

(** On an object, whose keys are distinct, the loop is a map over the
    entries other than [__proto__]. *)
Lemma normalizeEntries_distinct todo : forall normalized,
  NoDup (map fst normalized ++ map fst todo)%list ->
  normalizeEntries todo normalized
  = (normalized
     ++ map (fun kv => (fst kv, normalizeValue (snd kv)))
         (filter (fun kv => negb (String.eqb (fst kv) "__proto__")) todo))%list.
Proof.
  induction todo as [|[key v] rest IH]; intros normalized Hnd; cbn.
  - symmetry. apply app_nil_r.
  - cbn in Hnd. pose proof (NoDup_remove_2 _ _ _ Hnd) as Hfresh.
    apply NoDup_remove_1 in Hnd.
    unfold assign_prop. destruct (String.eqb key "__proto__"); cbn [negb].
    + apply IH, Hnd.
    + rewrite set_prop_fresh by (intro Hin; apply Hfresh, in_or_app; left; exact Hin).
      rewrite IH.
      * cbn [map fst snd]. rewrite <- app_assoc. reflexivity.
      * rewrite map_app, <- app_assoc. cbn.
        apply NoDup_Add with (a := key) (l := (map fst normalized ++ map fst rest)%list);
          [|constructor; assumption].
        apply Add_app.
Qed.

Lemma get_prop_map (f : jsvalue -> jsvalue) entries key :
  get_prop (map (fun kv => (fst kv, f (snd kv))) entries) key
  = option_map f (get_prop entries key).
Proof.
  unfold get_prop. induction entries as [|[k v] rest IH]; cbn.
  - reflexivity.
  - destruct (String.eqb k key); [reflexivity | exact IH].
Qed.

Lemma get_prop_kept entries key :
  key <> "__proto__" ->
  get_prop (filter (fun kv => negb (String.eqb (fst kv) "__proto__")) entries) key
  = get_prop entries key.
Proof.
  intro Hkey. unfold get_prop. induction entries as [|[k v] rest IH]; cbn.
  - reflexivity.
  - destruct (String.eqb k "__proto__") eqn:Hk; cbn.
    + apply String.eqb_eq in Hk. subst k.
      assert (Hne : String.eqb "__proto__" key = false)
        by (apply String.eqb_neq; congruence).
      rewrite Hne. exact IH.
    + destruct (String.eqb k key); [reflexivity | exact IH].
Qed.

Lemma filter_kept_plain (entries : list (string * jsvalue)) :
  ~ In "__proto__" (map fst entries) ->
  filter (fun kv => negb (String.eqb (fst kv) "__proto__")) entries = entries.
Proof.
  induction entries as [|[k v] rest IH]; cbn; intro Hplain; [reflexivity|].
  destruct (String.eqb k "__proto__") eqn:Hk; cbn.
  - apply String.eqb_eq in Hk. exfalso. apply Hplain. left. exact Hk.
  - f_equal. apply IH. intro Hin. apply Hplain. right. exact Hin.
Qed.

(** An object with distinct keys, normalized. *)
Lemma normalizeData_distinct_object entries :
  NoDup (map fst entries) ->
  normalizeData (VObject entries)
  = VObject (map (fun kv => (fst kv, normalizeValue (snd kv)))
               (filter (fun kv => negb (String.eqb (fst kv) "__proto__")) entries)).
Proof.
  intro Hkeys. rewrite normalizeData_object.
  rewrite (normalizeEntries_distinct entries []) by exact Hkeys. reflexivity.
Qed.

(** ** The per-value dispatch *)


Lemma normalizeValue_string s :
  s <> "" -> normalizeValue (VString s) = VString (trim s).
Proof.
  intro Hs. unfold normalizeValue, dispatch. cbn.
  apply String.eqb_neq in Hs. rewrite Hs. reflexivity.
Qed.

Lemma normalizeValue_field_ok value : field_ok (normalizeValue value) = true.
Proof.
  destruct value as [| |b|x|s|items|entries]; try reflexivity.
  unfold normalizeValue, dispatch. cbn.
  destruct (String.eqb s ""); cbn; [reflexivity | apply trim_trimmed].
Qed.


Lemma normalizeValue_fields_clean value :
  fields_clean (normalizeData value) = true ->
  fields_clean (normalizeValue value) = true.
Proof.
  intro IH. destruct value as [| |b|x|s|items|entries]; try reflexivity.
  - unfold normalizeValue, dispatch. cbn. destruct (String.eqb s ""); reflexivity.
  - exact IH.
  - exact IH.
Qed.

(** ** The normalizer *)




(** C2, as stated, fails: [null] and an untrimmed string that are elements
    of an array come out of [normalizeData] as they went in. *)
Lemma C2_counterexample :
  normalized_record (normalizeData (VArray [VNull; VString " x "])) = false.
Proof. reflexivity. Qed.

(** C2, amended. In [normalizeData x], every value stored under a key of
    a mapping, at any depth, is neither [null] nor [undefined], and is
    trimmed when it is a string. *)
Theorem C2_fields_of_mappings_are_clean :
  forall x : jsvalue, fields_clean (normalizeData x) = true.
Proof.
  induction x as [| |b|n|s|items IH|entries IH] using jsvalue_nested_ind;
    try reflexivity.
  - rewrite normalizeData_array. cbn [fields_clean].
    apply forallb_forall. intros y Hy. apply in_map_iff in Hy as [x [<- Hx]].
    rewrite Forall_forall in IH. apply IH, Hx.
  - rewrite normalizeData_object. cbn [fields_clean].
    apply forallb_forall.
    apply (proj1 (Forall_forall
                    (fun kv => field_ok (snd kv) && fields_clean (snd kv) = true) _)).
    apply (normalizeEntries_values (fun v => field_ok v && fields_clean v = true));
      [|constructor].
    eapply Forall_impl; [|exact IH]. intros [k v] Hv. cbn in *.
    rewrite normalizeValue_field_ok. apply normalizeValue_fields_clean, Hv.
Qed.


(** ** The filesystem *)

Lemma lookup_set_same fs p n : Fs.lookup (set_prop fs p n) p = Some n.
Proof.
  unfold Fs.lookup. induction fs as [|[k m] rest IH]; cbn.
  - rewrite String.eqb_refl. reflexivity.
  - destruct (String.eqb k p) eqn:E; cbn; rewrite E; [reflexivity | exact IH].
Qed.

Lemma lookup_set_other fs p q n :
  p <> q -> Fs.lookup (set_prop fs p n) q = Fs.lookup fs q.
Proof.
  intro Hpq. unfold Fs.lookup. induction fs as [|[k m] rest IH]; cbn.
  - apply String.eqb_neq in Hpq. rewrite Hpq. reflexivity.
  - destruct (String.eqb k p) eqn:E; cbn.
    + apply String.eqb_eq in E. subst k.
      apply String.eqb_neq in Hpq. rewrite Hpq. reflexivity.
    + destruct (String.eqb k q); [reflexivity | exact IH].
Qed.

Lemma make_directories_effect dir todo : forall w,
  exists o w1,
    Fs.make_directories dir todo w = (o, w1)
    /\ (o = Returned tt \/ exists e, o = Thrown e)
    /\ console w1 = console w /\ requests w1 = requests w
    /\ forall q,
         Fs.lookup (files w1) q = Fs.lookup (files w) q
         \/ (Fs.lookup (files w) q = None /\ Fs.lookup (files w1) q = Some Directory
             /\ In q todo).
Proof.
  induction todo as [|p rest IH]; intro w; cbn [Fs.make_directories].
  - exists (Returned tt), w. repeat split; auto.
  - destruct (Fs.lookup (files w) p) as [[content|]|] eqn:Hp.
    + eexists. eexists. split; [reflexivity|]. repeat split; eauto.
    + destruct (IH w) as (o & w1 & Hrun & Ho & Hc & Hr & Hframe).
      exists o, w1. repeat split; auto.
      intro q. destruct (Hframe q) as [Hsame | (Hnone & Hdir & Hin)];
        [left; exact Hsame | right; repeat split; auto; right; exact Hin].
    + destruct (IH (Fs.with_files w (set_prop (files w) p Directory)))
        as (o & w1 & Hrun & Ho & Hc & Hr & Hframe).
      exists o, w1. cbn in Hc, Hr. repeat split; auto.
      intro q. cbn [Fs.with_files files] in Hframe.
      destruct (string_dec p q) as [<- | Hpq].
      * right. split; [exact Hp|]. split; [|left; reflexivity].
        destruct (Hframe p) as [Hsame | (Hnone & _)].
        -- rewrite Hsame. apply lookup_set_same.
        -- rewrite lookup_set_same in Hnone. discriminate.
      * destruct (Hframe q) as [Hsame | (Hnone & Hdir & Hin)].
        -- left. rewrite Hsame. apply lookup_set_other, Hpq.
        -- right. rewrite lookup_set_other in Hnone by exact Hpq.
           repeat split; auto. right. exact Hin.
Qed.

(** The directory step of [writeYamlFile]. *)
Lemma ensure_directory dir w :
  exists o w1,
    when (negb (Fs.existsSync dir w)) (Fs.mkdirSync dir) w = (o, w1)
    /\ (o = Returned tt \/ exists e, o = Thrown e)
    /\ console w1 = console w /\ requests w1 = requests w
    /\ only_directories_added dir (files w) (files w1).
Proof.
  destruct (Fs.existsSync dir w); cbn [negb when].
  - exists (Returned tt), w. repeat split; auto. intro q. left. reflexivity.
  - unfold Fs.mkdirSync.
    destruct (make_directories_effect dir (path_prefixes dir) w)
      as (o & w1 & Hrun & Ho & Hc & Hr & Hframe).
    exists o, w1. repeat split; auto.
Qed.

Lemma copyFileSync_cases src dest w :
  (exists e, Fs.copyFileSync src dest w = (Thrown e, w))
  \/ (exists content,
        Fs.lookup (files w) src = Some (File content)
        /\ Fs.copyFileSync src dest w
           = (Returned tt, Fs.with_files w (set_prop (files w) dest (File content)))).
Proof.
  unfold Fs.copyFileSync. cbv zeta.
  destruct (Fs.lookup (files w) src) as [[content|]|]; try (left; eexists; reflexivity).
  destruct (Fs.write_error (files w) dest); [left; eexists; reflexivity|].
  right. exists content. split; reflexivity.
Qed.

Lemma writeFileSync_cases p data w :
  (exists e, Fs.writeFileSync p data w = (Thrown e, w))
  \/ Fs.writeFileSync p data w
     = (Returned tt, Fs.with_files w (set_prop (files w) p (File data))).
Proof.
  unfold Fs.writeFileSync.
  destruct (Fs.write_error (files w) p); [left; eexists; reflexivity | right; reflexivity].
Qed.

(** ** Computations that leave the files alone *)

Lemma quiet_outcome {A : Type} (m : M A) :
  quiet m -> forall w w', fst (m w) = fst (m w').
Proof. intros (o & logs & reqs & H) w w'. rewrite (H w), (H w'). reflexivity. Qed.

Lemma quiet_files {A : Type} (m : M A) :
  quiet m -> forall w, files (snd (m w)) = files w.
Proof. intros (o & logs & reqs & H) w. rewrite (H w). reflexivity. Qed.

Lemma quiet_const {A : Type} (o : outcome A) : quiet (fun w => (o, w)).
Proof.
  exists o, [], []. intros [fs c r]. cbn. rewrite !app_nil_r. reflexivity.
Qed.

Lemma quiet_ret {A : Type} (a : A) : quiet (ret a).
Proof. apply quiet_const. Qed.

Lemma quiet_throw {A : Type} (e : exn) : quiet (@throw A e).
Proof. apply quiet_const. Qed.

Lemma quiet_console_log text : quiet (console_log text).
Proof.
  exists (Returned tt), [Out text], []. intro w. unfold console_log.
  rewrite app_nil_r. reflexivity.
Qed.

Lemma quiet_console_error text : quiet (console_error text).
Proof.
  exists (Returned tt), [Err text], []. intro w. unfold console_error.
  rewrite app_nil_r. reflexivity.
Qed.

Lemma quiet_request url : quiet (request url).
Proof.
  exists (Returned tt), [], [url]. intro w. unfold request.
  rewrite app_nil_r. reflexivity.
Qed.

Lemma quiet_bind {A B : Type} (m : M A) (k : A -> M B) :
  quiet m -> (forall a, quiet (k a)) -> quiet (bind m k).
Proof.
  intros (o & logs & reqs & Hm) Hk. unfold bind.
  destruct o as [a|e|code|].
  - destruct (Hk a) as (o' & logs' & reqs' & Hka).
    exists o', (logs ++ logs')%list, (reqs ++ reqs')%list. intro w.
    rewrite Hm, Hka. cbn. rewrite !app_assoc. reflexivity.
  - exists (Thrown e), logs, reqs. intro w. rewrite Hm. reflexivity.
  - exists (Exited code), logs, reqs. intro w. rewrite Hm. reflexivity.
  - exists Pending, logs, reqs. intro w. rewrite Hm. reflexivity.
Qed.

Lemma quiet_try_catch {A : Type} (m : M A) (handler : exn -> M A) :
  quiet m -> (forall e, quiet (handler e)) -> quiet (try_catch m handler).
Proof.
  intros (o & logs & reqs & Hm) Hh. unfold try_catch.
  destruct o as [a|e|code|].
  - exists (Returned a), logs, reqs. intro w. rewrite Hm. reflexivity.
  - destruct (Hh e) as (o' & logs' & reqs' & Hhe).
    exists o', (logs ++ logs')%list, (reqs ++ reqs')%list. intro w.
    rewrite Hm, Hhe. cbn. rewrite !app_assoc. reflexivity.
  - exists (Exited code), logs, reqs. intro w. rewrite Hm. reflexivity.
  - exists Pending, logs, reqs. intro w. rewrite Hm. reflexivity.
Qed.

Create HintDb quiet.

#[local] Hint Resolve quiet_ret quiet_throw quiet_console_log quiet_console_error
  quiet_request quiet_const : quiet.

Ltac quiet_steps :=
  repeat first
    [ apply quiet_bind; [|intro]
    | apply quiet_try_catch; [|intro]
    | solve [auto with quiet] ].

Lemma quiet_files_only {A : Type} (m : M A) : quiet m -> files_only m.
Proof.
  intros Hq w w' Hfiles. split; [apply quiet_outcome, Hq|].
  rewrite !quiet_files by exact Hq. exact Hfiles.
Qed.

Lemma files_only_bind {A B : Type} (m : M A) (k : A -> M B) :
  files_only m -> (forall a, files_only (k a)) -> files_only (bind m k).
Proof.
  intros Hm Hk w w' Hfiles. unfold bind.
  destruct (Hm w w' Hfiles) as [Ho Hf].
  destruct (m w) as [o w1], (m w') as [o' w1']. cbn [fst snd] in Ho, Hf. subst o'.
  destruct o as [a|e|code|]; cbn [fst snd]; auto. apply Hk, Hf.
Qed.

Lemma files_only_try_catch {A : Type} (m : M A) (handler : exn -> M A) :
  files_only m -> (forall e, files_only (handler e)) -> files_only (try_catch m handler).
Proof.
  intros Hm Hh w w' Hfiles. unfold try_catch.
  destruct (Hm w w' Hfiles) as [Ho Hf].
  destruct (m w) as [o w1], (m w') as [o' w1']. cbn [fst snd] in Ho, Hf. subst o'.
  destruct o as [a|e|code|]; cbn [fst snd]; auto. apply Hh, Hf.
Qed.

(** ** The fetcher *)

Lemma fetchJson_quiet hops : forall url, quiet (fetchJson hops url).
Proof.
  induction hops as [|hops IH]; intros [u|]; cbn [fetchJson]; auto with quiet.
  - apply quiet_bind; [auto with quiet | intros _].
    destruct (network u) as [code msg location [json|err]|err]; auto with quiet;
      destruct ((code =? 302)%nat || (code =? 301)%nat); auto with quiet;
      destruct (negb (code =? 200)%nat); auto with quiet.
  - apply quiet_bind; [auto with quiet | intros _].
    destruct (network u) as [code msg location [json|err]|err]; auto with quiet;
      destruct ((code =? 302)%nat || (code =? 301)%nat); auto with quiet;
      destruct (negb (code =? 200)%nat); auto with quiet.
Qed.

Lemma fetchSheetData_quiet hops sheetConfig : quiet (fetchSheetData hops sheetConfig).
Proof.
  unfold fetchSheetData. quiet_steps.
  - apply fetchJson_quiet.
  - match goal with |- quiet (if ?c then _ else _) => destruct c end; quiet_steps.
Qed.

Lemma validateData_quiet sheetName data : quiet (validateData sheetName data).
Proof.
  unfold validateData. destruct data; auto with quiet.
  destruct (List.length items =? 0)%nat; [quiet_steps|].
  destruct (0 <? List.length (filter invalid_item items))%nat; auto with quiet.
Qed.

(** What [fetchSheetData] makes of what [fetchJson] resolves to. *)
Lemma fetchSheetData_outcome hops sheetConfig w :
  fst (fetchSheetData hops sheetConfig w)
  = match fst (fetchJson hops (Cfg.jsonUrl sheetConfig) w) with
    | Returned data => Returned (if truthy data then data else VArray [])
    | other => other
    end.
Proof.
  destruct (fetchJson_quiet hops (Cfg.jsonUrl sheetConfig)) as (o & logs & reqs & H).
  unfold fetchSheetData, try_catch, bind, console_log. rewrite !H. cbn [fst].
  destruct o as [data|e|code|]; try reflexivity.
  destruct data as [| |[|]|[[|]| | |]|[|]|[|]|]; reflexivity.
Qed.

(** ** The writer *)

Lemma make_directories_files_only dir todo : files_only (Fs.make_directories dir todo).
Proof.
  induction todo as [|p rest IH]; intros w w' Hfiles; cbn [Fs.make_directories].
  - split; [reflexivity | exact Hfiles].
  - rewrite <- Hfiles.
    destruct (Fs.lookup (files w) p) as [[content|]|].
    + split; [reflexivity | exact Hfiles].
    + apply IH, Hfiles.
    + apply IH. cbn. rewrite Hfiles. reflexivity.
Qed.

Lemma copyFileSync_files_only src dest : files_only (Fs.copyFileSync src dest).
Proof.
  intros w w' Hfiles. unfold Fs.copyFileSync. cbv zeta. rewrite <- Hfiles.
  destruct (Fs.lookup (files w) src) as [[content|]|];
    try (split; [reflexivity | exact Hfiles]).
  destruct (Fs.write_error (files w) dest); split; try reflexivity; exact Hfiles.
Qed.

Lemma writeFileSync_files_only p data : files_only (Fs.writeFileSync p data).
Proof.
  intros w w' Hfiles. unfold Fs.writeFileSync. rewrite <- Hfiles.
  destruct (Fs.write_error (files w) p); split; try reflexivity; exact Hfiles.
Qed.

(** [if (c) { m }] for a condition read off the files. *)
Lemma files_only_when (condition : world -> bool) (m : M unit) :
  (forall w w', files w = files w' -> condition w = condition w') ->
  files_only m ->
  files_only (fun w => when (condition w) m w).
Proof.
  intros Hcondition Hm w w' Hfiles. rewrite (Hcondition w w' Hfiles).
  destruct (condition w'); [apply Hm, Hfiles | split; [reflexivity | exact Hfiles]].
Qed.

Lemma existsSync_files_only p w w' :
  files w = files w' -> Fs.existsSync p w = Fs.existsSync p w'.
Proof. unfold Fs.existsSync. intros ->. reflexivity. Qed.

Lemma written_line_quiet data outputPath :
  quiet (match length_text data with
         | inl error => throw error
         | inr text => console_log ("  Wrote " ++ text ++ " records to " ++ outputPath)
         end).
Proof. destruct (length_text data); auto with quiet. Qed.

Lemma writeYamlFile_files_only data outputPath :
  files_only (writeYamlFile data outputPath).
Proof.
  unfold writeYamlFile. cbv zeta.
  apply files_only_try_catch;
    [|intro e; apply quiet_files_only; apply quiet_bind; [|intro]; auto with quiet].
  apply files_only_bind; [|intros _].
  { apply files_only_when; [|apply make_directories_files_only].
    intros w w' Hfiles. rewrite (existsSync_files_only _ w w' Hfiles). reflexivity. }
  apply files_only_bind; [|intros _].
  { apply files_only_when.
    - intros w w' Hfiles. rewrite (existsSync_files_only _ w w' Hfiles). reflexivity.
    - apply files_only_bind; [apply copyFileSync_files_only | intros _].
      apply quiet_files_only. auto with quiet. }
  apply files_only_bind;
    [destruct data; first [apply writeFileSync_files_only
                          | apply quiet_files_only; auto with quiet]
    | intros _].
  apply files_only_bind; [apply quiet_files_only, written_line_quiet | intros _].
  apply quiet_files_only. auto with quiet.
Qed.

Lemma backup_step fullPath w1 :
  (exists e,
      when (Fs.existsSync fullPath w1 && Cfg.enabled config Cfg.backupBeforeSync)
        (Fs.copyFileSync fullPath (fullPath ++ ".backup") ;;
         console_log ("  Created backup: " ++ path_basename (fullPath ++ ".backup"))) w1
      = (Thrown e, w1))
  \/ (exists w2,
        when (Fs.existsSync fullPath w1 && Cfg.enabled config Cfg.backupBeforeSync)
          (Fs.copyFileSync fullPath (fullPath ++ ".backup") ;;
           console_log ("  Created backup: " ++ path_basename (fullPath ++ ".backup"))) w1
        = (Returned tt, w2)
        /\ backup_made fullPath (files w1) (files w2)).
Proof.
  unfold Fs.existsSync.
  destruct (Fs.lookup (files w1) fullPath) as [n|] eqn:Hfull; cbn [andb when];
    [|right; exists w1; split; [reflexivity|]; left; auto].
  destruct (Cfg.enabled config Cfg.backupBeforeSync) eqn:Hon; cbn [when];
    [|right; exists w1; split; [reflexivity|]; left; auto].
  unfold bind.
  destruct (copyFileSync_cases fullPath (fullPath ++ ".backup") w1)
    as [[e ->] | (content & Hsrc & ->)].
  - left. exists e. reflexivity.
  - right. eexists. split; [reflexivity|]. right. exists content.
    cbn [console_log Fs.with_files files]. repeat split; auto.
Qed.

(** Every run of [writeYamlFile], by the step at which it ends: it throws
    with the directories made, or after the backup step, or it has
    written the target, and then returns [true] or throws at the last
    line. *)
Lemma writeYamlFile_cases data outputPath w :
  let fullPath := path_join cwd outputPath in
  let result := writeYamlFile data outputPath w in
  exists fs1,
    only_directories_added (path_dirname fullPath) (files w) fs1
    /\ (((exists e, fst result = Thrown e) /\ files (snd result) = fs1)
        \/ exists fs2,
             backup_made fullPath fs1 fs2
             /\ (((exists e, fst result = Thrown e) /\ files (snd result) = fs2)
                 \/ ((fst result = Returned true \/ exists e, fst result = Thrown e)
                     /\ files (snd result)
                        = set_prop fs2 fullPath (File (YAML_stringify data))))).
Proof.
  intros fullPath result. subst result. unfold writeYamlFile. cbv zeta. fold fullPath.
  destruct (ensure_directory (path_dirname fullPath) w)
    as (o & w1 & Hrun & Ho & _ & _ & Hframe).
  exists (files w1). split; [exact Hframe|].
  pose proof (backup_step fullPath w1) as Hbackup.
  cbv beta delta [bind try_catch] in Hbackup |- *.
  rewrite Hrun.
  destruct Ho as [-> | [e ->]];
    [|left; cbn; split; [eexists; reflexivity | reflexivity]].
  destruct Hbackup as [[e ->] | (w2 & -> & Hmade)];
    [left; cbn; split; [eexists; reflexivity | reflexivity]|].
  right. exists (files w2). split; [exact Hmade|].
  assert (Hwrite :
            (exists e, match data with
                       | VUndefined => throw (TypeError not_a_string)
                       | _ => Fs.writeFileSync fullPath (YAML_stringify data)
                       end w2 = (Thrown e, w2))
            \/ match data with
               | VUndefined => throw (TypeError not_a_string)
               | _ => Fs.writeFileSync fullPath (YAML_stringify data)
               end w2
               = (Returned tt,
                  Fs.with_files w2
                    (set_prop (files w2) fullPath (File (YAML_stringify data))))).
  { destruct data; try apply writeFileSync_cases. left. eexists. reflexivity. }
  destruct Hwrite as [[e ->] | ->];
    [left; cbn; split; [eexists; reflexivity | reflexivity]|].
  right.
  destruct (length_text data) as [e | text]; cbn;
    (split; [|reflexivity]); [right; eexists; reflexivity | left; reflexivity].
Qed.

Lemma writeYamlFile_settled data outputPath w :
  settled (fst (writeYamlFile data outputPath w)).
Proof.
  destruct (writeYamlFile_cases data outputPath w)
    as (fs1 & _ & [[[e He] _] | (fs2 & _ & [[[e He] _] | [[He | [e He]] _]])]);
    rewrite He; exact I.
Qed.

Lemma writeYamlFile_returns_true data outputPath w b :
  fst (writeYamlFile data outputPath w) = Returned b -> b = true.
Proof.
  destruct (writeYamlFile_cases data outputPath w)
    as (fs1 & _ & [[[e He] _] | (fs2 & _ & [[[e He] _] | [[He | [e He]] _]])]);
    rewrite He; congruence.
Qed.

(** When it returns, [writeYamlFile] has put the YAML text at the target
    path. *)
Lemma writeYamlFile_written data outputPath w :
  fst (writeYamlFile data outputPath w) = Returned true ->
  Fs.lookup (files (snd (writeYamlFile data outputPath w))) (path_join cwd outputPath)
  = Some (File (YAML_stringify data)).
Proof.
  destruct (writeYamlFile_cases data outputPath w)
    as (fs1 & _ & [[[e He] _] | (fs2 & _ & [[[e He] _] | [_ ->]])]);
    try (rewrite He; discriminate).
  intros _. apply lookup_set_same.
Qed.

(** With backups enabled and a regular file at the target: what is in
    the two places after [writeYamlFile]. *)
Lemma writeYamlFile_with_backup data outputPath previous w :
  Cfg.enabled config Cfg.backupBeforeSync = true ->
  Fs.lookup (files w) (path_join cwd outputPath) = Some (File previous) ->
  let fullPath := path_join cwd outputPath in
  let backupPath := fullPath ++ ".backup" in
  let result := writeYamlFile data outputPath w in
  ((exists e, fst result = Thrown e)
   /\ Fs.lookup (files (snd result)) fullPath = Some (File previous))
  \/ (Fs.lookup (files (snd result)) backupPath = Some (File previous)
      /\ (fst result = Returned true ->
          Fs.lookup (files (snd result)) fullPath = Some (File (YAML_stringify data)))).
Proof.
  intros Hon Hfile fullPath backupPath result.
  assert (Hneq : fullPath <> backupPath)
    by (intro E; symmetry in E; revert E; apply append_differs; discriminate).
  destruct (writeYamlFile_cases data outputPath w) as (fs1 & Hframe & Hcases).
  change (path_join cwd outputPath) with fullPath in Hframe, Hcases.
  change (writeYamlFile data outputPath w) with result in Hcases.
  assert (Hfile1 : Fs.lookup fs1 fullPath = Some (File previous)).
  { destruct (Hframe fullPath) as [-> | (Hnone & _)]; [exact Hfile|].
    unfold fullPath in Hnone. congruence. }
  destruct Hcases as [[Hthrown ->] | (fs2 & Hmade & Hcases)];
    [left; split; assumption|].
  assert (Hfs2 : fs2 = set_prop fs1 backupPath (File previous)).
  { destruct Hmade as [[_ [Hoff | Hnone]] | (content & _ & Hcontent & ->)];
      [congruence | congruence |].
    rewrite Hfile1 in Hcontent. injection Hcontent as <-. reflexivity. }
  right. destruct Hcases as [[[e He] ->] | [_ ->]]; subst fs2.
  - split; [apply lookup_set_same | rewrite He; discriminate].
  - split; [|intros _; apply lookup_set_same].
    rewrite lookup_set_other by exact Hneq. apply lookup_set_same.
Qed.

Lemma backup_is_not_the_directory p : p ++ ".backup" <> path_dirname p.
Proof.
  intro E. apply (f_equal String.length) in E. rewrite length_append in E.
  pose proof (length_path_dirname p). cbn in E. lia.
Qed.

(** A path that can be written can still be written once a file has been
    put at its backup path. *)
Lemma write_error_after_backup fs p content :
  Fs.write_error fs p = None ->
  Fs.write_error (set_prop fs (p ++ ".backup") (File content)) p = None.
Proof.
  unfold Fs.write_error. destruct (ends_with_separator p); [discriminate|].
  rewrite (lookup_set_other fs _ _ _ (backup_is_not_the_directory p)).
  rewrite (lookup_set_other fs (p ++ ".backup") p)
    by (apply append_differs; discriminate).
  auto.
Qed.

Lemma writable_in_a_directory fs p :
  Fs.write_error fs p = None -> Fs.lookup fs (path_dirname p) = Some Directory.
Proof.
  unfold Fs.write_error. destruct (ends_with_separator p); [discriminate|].
  destruct (Fs.lookup fs (path_dirname p)) as [[content|]|]; try discriminate.
  reflexivity.
Qed.

(** [writeYamlFile] when nothing stands in the way of the copy and of the
    write: the backup is made and the target written; only the data can
    still make it throw, when the serializer has no text for it or its
    [length] cannot be read. *)
Lemma writeYamlFile_unhindered data outputPath previous w :
  Cfg.enabled config Cfg.backupBeforeSync = true ->
  Fs.lookup (files w) (path_join cwd outputPath) = Some (File previous) ->
  Fs.write_error (files w) (path_join cwd outputPath) = None ->
  Fs.write_error (files w) (path_join cwd outputPath ++ ".backup") = None ->
  let fullPath := path_join cwd outputPath in
  let backedUp := set_prop (files w) (fullPath ++ ".backup") (File previous) in
  let written := set_prop backedUp fullPath (File (YAML_stringify data)) in
  let result := writeYamlFile data outputPath w in
  match data with
  | VUndefined =>
      fst result = Thrown (TypeError not_a_string) /\ files (snd result) = backedUp
  | _ =>
      files (snd result) = written
      /\ match length_text data with
         | inl error => fst result = Thrown error
         | inr _ => fst result = Returned true
         end
  end.
Proof.
  intros Hon Hfile Hfull Hbackup fullPath backedUp written result.
  subst result backedUp written. unfold writeYamlFile. cbv zeta. fold fullPath.
  pose proof (writable_in_a_directory _ _ Hfull) as Hdir.
  pose proof (write_error_after_backup _ _ previous Hfull) as Hfull2.
  fold fullPath in Hfile, Hfull, Hbackup, Hdir, Hfull2.
  cbv beta delta [bind try_catch Fs.existsSync Fs.copyFileSync Fs.writeFileSync].
  rewrite Hdir. cbn [negb when ret].
  rewrite Hfile, Hon. cbn [andb when]. cbv beta zeta.
  rewrite Hfile, Hbackup. cbv beta iota.
  cbn [console_log Fs.with_files files console requests].
  destruct data; cbv beta iota; try (split; reflexivity);
    cbn [files]; rewrite Hfull2;
    match goal with
    | |- context [length_text ?d] => destruct (length_text d)
    end; split; reflexivity.
Qed.

(** C8. With [backupBeforeSync] enabled and a file at the resolved output
    path, [writeYamlFile] copies that file to [<path>.backup] and only
    then overwrites [<path>]. When it returns, the backup holds the
    content the file had before and the file holds the new YAML text.
    However it ends, either the backup holds that content, or it has
    thrown before the copy was made and the file is as it was. And when
    nothing stands in the way of writing the two paths, the backup is
    made whatever the data, the file is written unless the serializer
    has no text for the data, and [writeYamlFile] returns once [length]
    of the data can be read. *)
Theorem C8_backup_holds_previous_content :
  forall (data : jsvalue) (outputPath previous : string) (w : world),
    Cfg.enabled config Cfg.backupBeforeSync = true ->
    Fs.lookup (files w) (path_join cwd outputPath) = Some (File previous) ->
    let fullPath := path_join cwd outputPath in
    let backupPath := fullPath ++ ".backup" in
    let result := writeYamlFile data outputPath w in
    (fst result = Returned true ->
       Fs.lookup (files (snd result)) backupPath = Some (File previous)
       /\ Fs.lookup (files (snd result)) fullPath = Some (File (YAML_stringify data)))
    /\ (Fs.lookup (files (snd result)) backupPath = Some (File previous)
        \/ ((exists e, fst result = Thrown e)
            /\ Fs.lookup (files (snd result)) fullPath = Some (File previous)))
    /\ (Fs.write_error (files w) fullPath = None ->
        Fs.write_error (files w) backupPath = None ->
        Fs.lookup (files (snd result)) backupPath = Some (File previous)
        /\ (data <> VUndefined ->
            Fs.lookup (files (snd result)) fullPath
            = Some (File (YAML_stringify data)))
        /\ (data <> VUndefined ->
            (exists text, length_text data = inr text) ->
            fst result = Returned true)).
Proof.
  intros data outputPath previous w Hon Hfile fullPath backupPath result.
  assert (Hneq : fullPath <> backupPath)
    by (intro E; symmetry in E; revert E; apply append_differs; discriminate).
  split; [|split].
  - subst fullPath backupPath result.
    destruct (writeYamlFile_with_backup data outputPath previous w Hon Hfile)
      as [[[e He] Hkept] | [Hbackup Hwritten]].
    + rewrite He. discriminate.
    + intro Hreturned. split; [exact Hbackup | exact (Hwritten Hreturned)].
  - subst fullPath backupPath result.
    destruct (writeYamlFile_with_backup data outputPath previous w Hon Hfile)
      as [[[e He] Hkept] | [Hbackup Hwritten]].
    + right. split; [exists e; exact He | exact Hkept].
    + left. exact Hbackup.
  - intros Hfull Hback.
    pose proof (writeYamlFile_unhindered data outputPath previous w Hon Hfile
                  Hfull Hback) as Hrun.
    cbv zeta in Hrun. fold fullPath backupPath in Hrun.
    change (writeYamlFile data outputPath w) with result in Hrun.
    destruct data;
      try (destruct Hrun as [Hfiles Hends]; rewrite Hfiles;
           split; [rewrite (lookup_set_other _ _ _ _ Hneq); apply lookup_set_same|];
           split; [intros _; apply lookup_set_same|];
           intros _ [text Htext]; rewrite Htext in Hends; exact Hends).
    destruct Hrun as [_ Hfiles]. rewrite Hfiles.
    split; [apply lookup_set_same|]. split; intro H; contradiction H; reflexivity.
Qed.

(** ** The validator *)

Lemma invalid_item_spec item :
  invalid_item item = negb (is_mapping item || isArray item).
Proof. destruct item; reflexivity. Qed.

Lemma validateData_array sheetName items w :
  fst (validateData sheetName (VArray items) w)
  = if (List.length (filter invalid_item items) =? 0)%nat
    then Returned true
    else Thrown (Error (sheetName ++ " contains "
                        ++ string_of_nat (List.length (filter invalid_item items))
                        ++ " invalid items")).
Proof.
  unfold validateData. destruct items as [|item rest]; [reflexivity|].
  cbn [List.length Nat.eqb].
  destruct (List.length (filter invalid_item (item :: rest))) as [|n]; reflexivity.
Qed.


(** C3, as stated, fails: an element that is an array is not a mapping,
    and [validateData] accepts it. *)
Lemma C3_counterexample :
  is_mapping (VArray []) = false
  /\ fst (validateData "board" (VArray [VArray []]) (mkWorld [] [] []))
     = Returned true.
Proof. split; reflexivity. Qed.

(** C3, amended. On an array, [validateData] counts the elements that are
    [null] or not of type object, that is, neither mappings nor arrays.
    With none of them (the empty array included) it returns [true];
    otherwise it throws an error whose message carries their number. *)
Theorem C3_validate_counts_non_objects :
  forall (sheetName : string) (items : list jsvalue) (w : world),
    let offending :=
      List.length (filter (fun item => negb (is_mapping item || isArray item)) items) in
    fst (validateData sheetName (VArray items) w)
    = if (offending =? 0)%nat
      then Returned true
      else Thrown (Error (sheetName ++ " contains " ++ string_of_nat offending
                          ++ " invalid items")).
Proof.
  intros sheetName items w offending. rewrite validateData_array.
  rewrite (filter_ext invalid_item _ invalid_item_spec). reflexivity.
Qed.

(** ** One source *)

Lemma sync_stages_files_only hops sheetName sheetConfig :
  files_only (sync_stages hops sheetName sheetConfig).
Proof.
  unfold sync_stages.
  apply files_only_bind; [apply quiet_files_only, fetchSheetData_quiet | intro rawData].
  apply files_only_bind.
  - destruct (Cfg.enabled config Cfg.validateData);
      apply quiet_files_only; auto using validateData_quiet with quiet.
  - intros _. apply files_only_bind; [apply writeYamlFile_files_only | intros _].
    apply quiet_files_only. auto with quiet.
Qed.

(** What [syncSheet] makes of its [try] block: a result is passed on, an
    exception becomes a failed result. *)
Lemma syncSheet_outcome hops sheetName sheetConfig w :
  fst (syncSheet hops sheetName (Some sheetConfig) w)
  = match fst (sync_stages hops sheetName sheetConfig w) with
    | Returned result => Returned result
    | Thrown e => Returned (Failed (message e))
    | Exited code => Exited code
    | Pending => Pending
    end
  /\ files (snd (syncSheet hops sheetName (Some sheetConfig) w))
     = files (snd (sync_stages hops sheetName sheetConfig w)).
Proof.
  cbv beta iota delta [syncSheet bind console_log try_catch].
  match goal with
  | |- context [sync_stages _ _ _ ?w2] =>
      destruct (sync_stages_files_only hops sheetName sheetConfig w w2 eq_refl)
        as [Ho Hf];
      destruct (sync_stages hops sheetName sheetConfig w2) as [o w3]
  end.
  cbn [fst snd] in Ho, Hf. rewrite Ho, Hf.
  destruct o as [result|e|code|]; split; reflexivity.
Qed.

(** The [try] block once the fetch has resolved to [data] and the
    validation, where configured, lets the normalized value through. *)
Lemma sync_stages_after_fetch hops sheetName sheetConfig data w :
  fst (fetchJson hops (Cfg.jsonUrl sheetConfig) w) = Returned data ->
  let normalizedData := normalizeData (if truthy data then data else VArray []) in
  (Cfg.enabled config Cfg.validateData = true ->
   fst (validateData sheetName normalizedData w) = Returned true) ->
  fst (sync_stages hops sheetName sheetConfig w)
  = match fst (writeYamlFile normalizedData (Cfg.outputPath sheetConfig) w) with
    | Returned _ => Returned (Synced (record_count normalizedData))
    | Thrown e => Thrown e
    | Exited code => Exited code
    | Pending => Pending
    end
  /\ files (snd (sync_stages hops sheetName sheetConfig w))
     = files (snd (writeYamlFile normalizedData (Cfg.outputPath sheetConfig) w)).
Proof.
  intros Hfetch normalizedData Hvalid.
  pose proof (fetchSheetData_outcome hops sheetConfig w) as Hraw.
  rewrite Hfetch in Hraw.
  pose proof (quiet_files _ (fetchSheetData_quiet hops sheetConfig) w) as Hfiles1.
  cbv beta iota zeta delta [sync_stages bind].
  destruct (fetchSheetData hops sheetConfig w) as [o1 w1]. cbn [fst snd] in Hraw, Hfiles1.
  subst o1. cbv beta iota. fold normalizedData.
  assert (Hstep : exists w2,
             (if Cfg.enabled config Cfg.validateData
              then validateData sheetName normalizedData
              else ret true) w1 = (Returned true, w2)
             /\ files w2 = files w).
  { destruct (Cfg.enabled config Cfg.validateData).
    - pose proof (quiet_outcome _ (validateData_quiet sheetName normalizedData) w1 w) as Ho.
      pose proof (quiet_files _ (validateData_quiet sheetName normalizedData) w1) as Hf.
      rewrite (Hvalid eq_refl) in Ho.
      destruct (validateData sheetName normalizedData w1) as [o2 w2].
      cbn [fst snd] in Ho, Hf. subst o2. exists w2. split; [reflexivity | congruence].
    - exists w1. split; [reflexivity | exact Hfiles1]. }
  destruct Hstep as (w2 & -> & Hfiles2).
  destruct (writeYamlFile_files_only normalizedData (Cfg.outputPath sheetConfig)
              w2 w Hfiles2) as [Ho Hf].
  destruct (writeYamlFile normalizedData (Cfg.outputPath sheetConfig) w2) as [o3 w3].
  cbn [fst snd] in Ho, Hf. rewrite <- Ho, <- Hf.
  destruct o3; split; reflexivity.
Qed.

Lemma normalized_mappings_are_valid items :
  Forall (fun item => is_mapping item = true) items ->
  filter invalid_item (map normalizeData items) = [].
Proof.
  induction 1 as [|item rest Hitem _ IH]; [reflexivity|].
  destruct item; try discriminate Hitem. cbn [map]. rewrite normalizeData_object.
  cbn [filter invalid_item typeof is_null String.eqb]. exact IH.
Qed.

Lemma normalized_mappings_stay_mappings items :
  Forall (fun item => is_mapping item = true) items ->
  Forall (fun item => is_mapping item = true) (map normalizeData items).
Proof.
  induction 1 as [|item rest Hitem _ IH]; [constructor|].
  cbn [map]. constructor; [|exact IH].
  destruct item; try discriminate Hitem. rewrite normalizeData_object. reflexivity.
Qed.

Lemma record_count_normalizeData data :
  record_count (normalizeData data) = record_count data.
Proof.
  destruct data; try reflexivity. rewrite normalizeData_array. apply length_map.
Qed.

(** C5. On an array whose elements are all mappings, [normalizeData]
    gives an array of as many elements, all mappings again; followed by
    [validateData] it succeeds and keeps the length; a source whose fetch
    resolves to such an array and whose file can be written is reported as
    synced with that many records. *)
Theorem C5_mappings_normalize_validate_count :
  forall (hops : nat) (sheetName : string) (sheetConfig : Cfg.SheetConfig)
         (items : list jsvalue) (w : world),
    Forall (fun item => is_mapping item = true) items ->
    (exists normalized,
        normalizeData (VArray items) = VArray normalized
        /\ List.length normalized = List.length items
        /\ Forall (fun item => is_mapping item = true) normalized)
    /\ fst (validateData sheetName (normalizeData (VArray items)) w) = Returned true
    /\ record_count (normalizeData (VArray items)) = List.length items
    /\ (fst (fetchJson hops (Cfg.jsonUrl sheetConfig) w) = Returned (VArray items) ->
        fst (writeYamlFile (normalizeData (VArray items))
               (Cfg.outputPath sheetConfig) w) = Returned true ->
        fst (syncSheet hops sheetName (Some sheetConfig) w)
        = Returned (Synced (List.length items))).
Proof.
  intros hops sheetName sheetConfig items w Hitems.
  assert (Hvalid : forall w', fst (validateData sheetName (normalizeData (VArray items)) w')
                              = Returned true).
  { intro w'. rewrite normalizeData_array, validateData_array.
    rewrite (normalized_mappings_are_valid _ Hitems). reflexivity. }
  split.
  { exists (map normalizeData items). split; [apply normalizeData_array|].
    split; [apply length_map|]. apply normalized_mappings_stay_mappings, Hitems. }
  split; [apply Hvalid|]. split; [apply record_count_normalizeData|].
  intros Hfetch Hwrite.
  destruct (syncSheet_outcome hops sheetName sheetConfig w) as [-> _].
  destruct (sync_stages_after_fetch hops sheetName sheetConfig (VArray items) w Hfetch)
    as [-> _]; [intros _; apply Hvalid|].
  cbn [truthy]. rewrite Hwrite, record_count_normalizeData. reflexivity.
Qed.

(** C9. When the fetched body parses to a falsy value or to the empty
    array, [fetchSheetData] hands on [[]]; normalized, it passes the
    validation, and the source is reported as synced with 0 records
    unless the write itself throws. *)
Theorem C9_falsy_or_empty_body_counts_zero :
  forall (hops : nat) (sheetName : string) (sheetConfig : Cfg.SheetConfig)
         (data : jsvalue) (w : world),
    fst (fetchJson hops (Cfg.jsonUrl sheetConfig) w) = Returned data ->
    truthy data = false \/ data = VArray [] ->
    fst (fetchSheetData hops sheetConfig w) = Returned (VArray [])
    /\ fst (validateData sheetName (normalizeData (VArray [])) w) = Returned true
    /\ fst (syncSheet hops sheetName (Some sheetConfig) w)
       = match fst (writeYamlFile (VArray []) (Cfg.outputPath sheetConfig) w) with
         | Thrown e => Returned (Failed (message e))
         | _ => Returned (Synced 0)
         end.
Proof.
  intros hops sheetName sheetConfig data w Hfetch Hdata.
  assert (Hraw : (if truthy data then data else VArray []) = VArray [])
    by (destruct Hdata as [-> | ->]; reflexivity).
  split; [|split].
  - rewrite fetchSheetData_outcome, Hfetch, Hraw. reflexivity.
  - reflexivity.
  - destruct (syncSheet_outcome hops sheetName sheetConfig w) as [-> _].
    destruct (sync_stages_after_fetch hops sheetName sheetConfig data w Hfetch)
      as [-> _]; [intros _; rewrite Hraw; reflexivity|].
    rewrite Hraw. cbn [normalizeData map record_count List.length].
    pose proof (writeYamlFile_settled (VArray []) (Cfg.outputPath sheetConfig) w) as Hs.
    destruct (fst (writeYamlFile (VArray []) (Cfg.outputPath sheetConfig) w));
      try reflexivity; contradiction.
Qed.





(** ** All sources *)









Lemma get_sheet_absent name :
  ~ In name (map fst (Cfg.sheets config)) ->
  ~ In name Cfg.object_prototype_members ->
  Cfg.get_sheet config name = None.
Proof.
  intros Hown Hinherited. unfold Cfg.get_sheet.
  destruct (find (fun kv => String.eqb (fst kv) name) (Cfg.sheets config))
    as [kv|] eqn:Hfind.
  - apply find_some in Hfind as [Hin Hkey]. apply String.eqb_eq in Hkey.
    exfalso. apply Hown. rewrite <- Hkey. apply in_map, Hin.
  - destruct (existsb (String.eqb name) Cfg.object_prototype_members) eqn:Hex;
      [|reflexivity].
    apply existsb_exists in Hex as (member & Hin & Heq).
    apply String.eqb_eq in Heq. subst member. contradiction.
Qed.

(** C6, on the code. A target name given on the command line that is
    neither a key of [config.sheets] nor a name that every object
    inherits ends the run with exit code 1 before any request, but
    through the handler of unexpected errors: the pre-flight loop reads
    [jsonUrl] of [undefined], and the line that would report the unknown
    sheet is never printed. *)
Theorem C6_unknown_target_is_a_type_error :
  forall (hops : nat) (name : string) (w : world),
    name <> "" ->
    ~ In name (map fst (Cfg.sheets config)) ->
    ~ In name Cfg.object_prototype_members ->
    run hops (Some name) w
    = (Exited 1%Z,
       mkWorld (files w)
         (console w
          ++ [Out "Starting Google Sheets JSON to YAML sync...";
              Err "Unexpected error: TypeError: Cannot read properties of undefined (reading 'jsonUrl')"])
         (requests w)).
Proof.
  intros hops name w Hname Hown Hinherited.
  pose proof (get_sheet_absent name Hown Hinherited) as Hget.
  unfold run, main, sheets_to_sync. rewrite Hget.
  apply String.eqb_neq in Hname. rewrite Hname. cbn [negb].
  cbv beta iota zeta delta [try_catch bind console_log console_error when ret throw
                              process_exit validate_urls List.length Nat.eqb
                              files console requests message exn_name].
  rewrite <- app_assoc. reflexivity.
Qed.

(** A target that [config.sheets] lacks but inherits, such as
    [constructor]: [config.sheets[name]] is a member of the prototype,
    which has no [jsonUrl], and the run ends in the pre-flight check. The
    line on the unknown sheet is not printed here either. *)
Lemma inherited_target_has_no_url hops name w :
  ~ In name (map fst (Cfg.sheets config)) ->
  In name Cfg.object_prototype_members ->
  run hops (Some name) w
  = (Exited 1%Z,
     mkWorld (files w)
       (console w
        ++ [Out "Starting Google Sheets JSON to YAML sync...";
            Err ("Error: JSON URL not configured for " ++ dquote ++ name ++ dquote);
            Err "   Please update scripts/sheets-config.json with your actual JSON export URL"])
       (requests w)).
Proof.
  intros Hown Hinherited.
  assert (Hname : String.eqb name "" = false).
  { apply String.eqb_neq. intros ->. cbn in Hinherited.
    repeat (destruct Hinherited as [E | Hinherited]; [discriminate E|]).
    exact Hinherited. }
  assert (Hget : Cfg.get_sheet config name = Some Cfg.inherited_member).
  { unfold Cfg.get_sheet.
    destruct (find (fun kv => String.eqb (fst kv) name) (Cfg.sheets config))
      as [kv|] eqn:Hfind.
    - apply find_some in Hfind as [Hin Hkey]. apply String.eqb_eq in Hkey.
      exfalso. apply Hown. rewrite <- Hkey. apply in_map, Hin.
    - assert (Hex : existsb (String.eqb name) Cfg.object_prototype_members = true)
        by (apply existsb_exists; exists name; split;
            [exact Hinherited | apply String.eqb_refl]).
      rewrite Hex. reflexivity. }
  unfold run, main, sheets_to_sync. rewrite Hget, Hname. cbn [negb].
  cbv beta iota zeta delta [try_catch bind console_log console_error when ret throw
                              process_exit validate_urls List.length Nat.eqb
                              files console requests message exn_name
                              url_not_configured Cfg.inherited_member Cfg.jsonUrl].
  rewrite <- !app_assoc. reflexivity.
Qed.

(** ** More on the fetcher *)

(** X1. A URL that redirects to itself is followed for ever: whatever the
    number of hops the fetch is still pending, having asked for the same
    URL once more than it followed redirects. *)
Theorem X1_redirect_cycle_never_settles :
  forall (u statusMessage : string) (statusCode : nat) (body : parsed)
         (hops : nat) (w : world),
    network u = Response statusCode statusMessage (Some u) body ->
    statusCode = 301 \/ statusCode = 302 ->
    fetchJson hops (Some u) w
    = (Pending, mkWorld (files w) (console w) (requests w ++ repeat u (S hops))).
Proof.
  intros u statusMessage statusCode body hops w Hnet Hcode.
  assert (Hredirect : (statusCode =? 302)%nat || (statusCode =? 301)%nat = true)
    by (destruct Hcode as [-> | ->]; reflexivity).
  revert w. induction hops as [|hops IH]; intro w;
    cbn [fetchJson]; cbv beta iota delta [bind request]; rewrite Hnet, Hredirect.
  - reflexivity.
  - rewrite IH. cbn [files console requests]. rewrite <- app_assoc. reflexivity.
Qed.

(** X2. What [fetchJson] resolves to is the parsed body of a response
    with status 200, the answer to the last URL it asked for. *)
Theorem X2_resolves_only_to_a_200_body :
  forall (hops : nat) (url : option string) (w : world) (json : jsvalue),
    fst (fetchJson hops url w) = Returned json ->
    exists (u statusMessage : string) (location : option string) (earlier : list string),
      network u = Response 200 statusMessage location (Json json)
      /\ requests (snd (fetchJson hops url w)) = (earlier ++ [u])%list.
Proof.
  induction hops as [|hops IH]; intros [u|] w json; cbn [fetchJson];
    try discriminate;
    cbv beta iota delta [bind request];
    destruct (network u) as [status msg location [body|err]|err] eqn:Hnet;
    try discriminate;
    destruct ((status =? 302)%nat || (status =? 301)%nat); try discriminate;
    try apply IH;
    destruct (status =? 200)%nat eqn:Hok; try discriminate;
    cbn; intro Hjson; injection Hjson as <-;
    apply Nat.eqb_eq in Hok; subst status;
    exists u, msg, location, (requests w); (split; [exact Hnet | reflexivity]).
Qed.

(** ** More on the normalizer *)

Lemma lower_char_keeps_space c : is_white_space (lower_char c) = is_white_space c.
Proof. destruct c as [[|] [|] [|] [|] [|] [|] [|] [|]]; reflexivity. Qed.

Lemma lower_char_idempotent c : lower_char (lower_char c) = lower_char c.
Proof. destruct c as [[|] [|] [|] [|] [|] [|] [|] [|]]; reflexivity. Qed.

Lemma toLowerCase_idempotent s : toLowerCase (toLowerCase s) = toLowerCase s.
Proof.
  induction s as [|c rest IH]; cbn; [reflexivity|].
  rewrite lower_char_idempotent, IH. reflexivity.
Qed.

Lemma toLowerCase_trimStart s : toLowerCase (trimStart s) = trimStart (toLowerCase s).
Proof.
  induction s as [|c rest IH]; cbn [trimStart toLowerCase]; [reflexivity|].
  rewrite lower_char_keeps_space. destruct (is_white_space c); [exact IH | reflexivity].
Qed.

Lemma toLowerCase_trimEnd s : toLowerCase (trimEnd s) = trimEnd (toLowerCase s).
Proof.
  induction s as [|c rest IH]; cbn [trimEnd toLowerCase]; [reflexivity|].
  rewrite <- IH, lower_char_keeps_space.
  destruct (trimEnd rest); cbn [toLowerCase]; [|reflexivity].
  destruct (is_white_space c); reflexivity.
Qed.

Lemma toLowerCase_trim s : toLowerCase (trim s) = trim (toLowerCase s).
Proof. unfold trim. rewrite toLowerCase_trimEnd, toLowerCase_trimStart. reflexivity. Qed.

(** X4. [normalizeBoolean] reads a string without regard to letter case
    or to white space around it. *)
Theorem X4_normalizeBoolean_ignores_case_and_space :
  forall s : string,
    normalizeBoolean (VString (toLowerCase s)) = normalizeBoolean (VString s)
    /\ normalizeBoolean (VString (trim s)) = normalizeBoolean (VString s).
Proof.
  intro s. unfold normalizeBoolean. cbv zeta. split.
  - rewrite toLowerCase_idempotent. reflexivity.
  - rewrite toLowerCase_trim, trim_idempotent. reflexivity.
Qed.

Lemma kept_keys (f : jsvalue -> jsvalue) (entries : list (string * jsvalue)) :
  map fst (map (fun kv => (fst kv, f (snd kv)))
             (filter (fun kv => negb (String.eqb (fst kv) "__proto__")) entries))
  = filter (fun key => negb (String.eqb key "__proto__")) (map fst entries).
Proof.
  induction entries as [|[k v] rest IH]; cbn; [reflexivity|].
  destruct (String.eqb k "__proto__"); cbn; [exact IH | f_equal; exact IH].
Qed.

(** X5. The mapping that [normalizeData] builds has the keys of its
    input, in the same order, but for [__proto__]: the assignment to that
    key makes no property. *)
Theorem X5_normalize_keeps_the_keys :
  forall entries : list (string * jsvalue),
    NoDup (map fst entries) ->
    exists normalized,
      normalizeData (VObject entries) = VObject normalized
      /\ map fst normalized
         = filter (fun key => negb (String.eqb key "__proto__")) (map fst entries).
Proof.
  intros entries Hkeys. eexists. split; [apply normalizeData_distinct_object, Hkeys|].
  apply kept_keys.
Qed.

(** X6. A property, under a key other than [__proto__], holding a boolean
    or a number keeps its value, the falsy [false], [0] and [NaN]
    included: only [null], [undefined] and the empty string count as
    empty. *)
Theorem X6_numbers_and_booleans_are_kept :
  forall (entries : list (string * jsvalue)) (key : string) (v : jsvalue),
    NoDup (map fst entries) ->
    key <> "__proto__" ->
    get_prop entries key = Some v ->
    typeof v = "boolean" \/ typeof v = "number" ->
    exists normalized,
      normalizeData (VObject entries) = VObject normalized
      /\ get_prop normalized key = Some v.
Proof.
  intros entries key v Hkeys Hkey Hget Htype.
  eexists. split; [apply normalizeData_distinct_object, Hkeys|].
  rewrite get_prop_map, (get_prop_kept _ _ Hkey), Hget. cbn [option_map]. f_equal.
  destruct v; destruct Htype as [H|H]; try discriminate H; reflexivity.
Qed.

(** X7. A property, under a key other than [__proto__], holding [null],
    [undefined] or a string of white space only comes out as the empty
    string. *)
Theorem X7_empty_values_become_the_empty_string :
  forall (entries : list (string * jsvalue)) (key : string) (v : jsvalue),
    NoDup (map fst entries) ->
    key <> "__proto__" ->
    get_prop entries key = Some v ->
    v = VNull \/ v = VUndefined \/ (exists s, v = VString s /\ trim s = "") ->
    exists normalized,
      normalizeData (VObject entries) = VObject normalized
      /\ get_prop normalized key = Some (VString "").
Proof.
  intros entries key v Hkeys Hkey Hget Hempty.
  eexists. split; [apply normalizeData_distinct_object, Hkeys|].
  rewrite get_prop_map, (get_prop_kept _ _ Hkey), Hget. cbn [option_map]. f_equal.
  destruct Hempty as [-> | [-> | (s & -> & Hs)]]; try reflexivity.
  destruct (string_dec s "") as [-> | Hne]; [reflexivity|].
  rewrite (normalizeValue_string _ Hne), Hs. reflexivity.
Qed.

Lemma distinct_NoDup names : distinct names = true -> NoDup names.
Proof.
  induction names as [|name rest IH]; cbn [distinct]; intro H; constructor.
  - apply andb_true_iff in H as [Hfresh _]. apply negb_true_iff in Hfresh.
    intro Hin. assert (Hex : existsb (String.eqb name) rest = true)
      by (apply existsb_exists; exists name; split; [exact Hin | apply String.eqb_refl]).
    congruence.
  - apply IH. apply andb_true_iff in H as [_ H]. exact H.
Qed.

Lemma normalizeValue_clean_field value :
  field_ok value = true ->
  normalizeData value = value ->
  normalizeValue value = value.
Proof.
  intros Hok IH. destruct value as [| |b|x|s|items|entries];
    try discriminate Hok; try reflexivity; try exact IH.
  cbn [field_ok] in Hok. destruct (string_dec s "") as [-> | Hne]; [reflexivity|].
  rewrite (normalizeValue_string _ Hne), (trimmed_fixed _ Hok). reflexivity.
Qed.

Lemma plain_entries (entries : list (string * jsvalue)) :
  forallb (fun kv => negb (String.eqb (fst kv) "__proto__") && keys_plain (snd kv))
    entries = true ->
  ~ In "__proto__" (map fst entries).
Proof.
  induction entries as [|[k v] rest IH]; cbn; [auto|].
  intro H. apply andb_true_iff in H as [Hhead Hrest].
  apply andb_true_iff in Hhead as [Hk _]. apply negb_true_iff, String.eqb_neq in Hk.
  intros [E | Hin]; [exact (Hk E) | exact (IH Hrest Hin)].
Qed.

(** X8. [normalizeData] changes nothing in a value whose objects have
    distinct keys, none of them [__proto__], and whose properties are
    all clean already. *)
Theorem X8_clean_values_are_fixed :
  forall x : jsvalue,
    keys_distinct x = true -> keys_plain x = true -> fields_clean x = true ->
    normalizeData x = x.
Proof.
  induction x as [| |b|n|s|items IH|entries IH] using jsvalue_nested_ind;
    try reflexivity; cbn [keys_distinct keys_plain fields_clean];
    intros Hkeys Hplain Hclean.
  - rewrite normalizeData_array. f_equal.
    rewrite forallb_forall in Hkeys, Hplain, Hclean. rewrite Forall_forall in IH.
    rewrite <- (map_id items) at 2. apply map_ext_in. intros y Hy. auto.
  - apply andb_true_iff in Hkeys as [Hnames Hkeys].
    rewrite (normalizeData_distinct_object _ (distinct_NoDup _ Hnames)).
    rewrite (filter_kept_plain _ (plain_entries _ Hplain)). f_equal.
    rewrite forallb_forall in Hkeys, Hplain, Hclean. rewrite Forall_forall in IH.
    rewrite <- (map_id entries) at 2. apply map_ext_in. intros [k v] Hin.
    specialize (Hclean _ Hin). specialize (Hkeys _ Hin). specialize (IH _ Hin).
    specialize (Hplain _ Hin).
    cbn [fst snd] in *. apply andb_true_iff in Hclean as [Hok Hclean].
    apply andb_true_iff in Hplain as [_ Hplain].
    rewrite (normalizeValue_clean_field v Hok (IH Hkeys Hplain Hclean)). reflexivity.
Qed.

(** ** More on the validator *)

Lemma no_invalid_item items :
  List.length (filter invalid_item items) = 0
  <-> Forall (fun item => is_mapping item = true \/ isArray item = true) items.
Proof.
  induction items as [|item rest IH]; cbn [filter].
  - split; [constructor | reflexivity].
  - destruct item; cbn; split; intro H;
      try discriminate H;
      try (inversion H as [|? ? [Hm | Ha] _]; discriminate);
      try (constructor; [auto | apply IH; exact H]);
      inversion H; subst; apply IH; assumption.
Qed.

(** X9. [validateData] never returns [false]: it returns [true] exactly
    on an array whose elements are all mappings or arrays, and throws on
    everything else. *)
Theorem X9_validate_accepts_exactly_arrays_of_objects :
  forall (sheetName : string) (data : jsvalue) (w : world),
    (fst (validateData sheetName data w) = Returned true
     <-> exists items,
           data = VArray items
           /\ Forall (fun item => is_mapping item = true \/ isArray item = true) items)
    /\ (fst (validateData sheetName data w) <> Returned true ->
        exists e, fst (validateData sheetName data w) = Thrown e).
Proof.
  intros sheetName data w.
  destruct data as [| |b|x|s|items|entries];
    try (split; [split; [discriminate | intros (items & H & _); discriminate H]
                | intros _; eexists; reflexivity]).
  rewrite validateData_array.
  destruct (List.length (filter invalid_item items) =? 0)%nat eqn:Hnone.
  - apply Nat.eqb_eq in Hnone. split; [|intro H; contradiction H; reflexivity].
    split; [|reflexivity]. intros _. exists items. split; [reflexivity|].
    apply no_invalid_item, Hnone.
  - apply Nat.eqb_neq in Hnone. split; [|intros _; eexists; reflexivity].
    split; [discriminate|]. intros (items' & Heq & Hall). injection Heq as <-.
    apply no_invalid_item in Hall. contradiction.
Qed.

(** ** More on the writer *)

(** X10. [writeYamlFile] touches the target, its backup and the
    directories on the way to the target, which it makes where they are
    missing. Every other path is left as it was, whether the write
    returns or throws. *)
Theorem X10_writer_leaves_other_paths_alone :
  forall (data : jsvalue) (outputPath other : string) (w : world),
    let fullPath := path_join cwd outputPath in
    other <> fullPath ->
    ~ In other (path_prefixes (path_dirname fullPath)) ->
    other <> fullPath ++ ".backup" ->
    Fs.lookup (files (snd (writeYamlFile data outputPath w))) other
    = Fs.lookup (files w) other.
Proof.
  intros data outputPath other w fullPath Hfull Hdir Hbackup.
  destruct (writeYamlFile_cases data outputPath w) as (fs1 & Hframe & Hcases).
  change (path_join cwd outputPath) with fullPath in Hframe, Hcases.
  assert (H1 : Fs.lookup fs1 other = Fs.lookup (files w) other).
  { destruct (Hframe other) as [E | (_ & _ & Hin)]; [exact E | contradiction]. }
  destruct Hcases as [[_ ->] | (fs2 & Hmade & Hcases)]; [exact H1|].
  assert (H2 : Fs.lookup fs2 other = Fs.lookup (files w) other).
  { destruct Hmade as [[-> _] | (content & _ & _ & ->)]; [exact H1|].
    rewrite lookup_set_other by congruence. exact H1. }
  destruct Hcases as [[_ ->] | [_ ->]]; [exact H2|].
  rewrite lookup_set_other by congruence. exact H2.
Qed.

(** X11. No backup is made when [backupBeforeSync] is off or when no
    file exists yet at the target: [<path>.backup] is as it was. *)
Theorem X11_no_backup_unless_enabled_and_present :
  forall (data : jsvalue) (outputPath : string) (w : world),
    let fullPath := path_join cwd outputPath in
    Cfg.enabled config Cfg.backupBeforeSync = false
    \/ Fs.lookup (files w) fullPath = None ->
    Fs.lookup (files (snd (writeYamlFile data outputPath w))) (fullPath ++ ".backup")
    = Fs.lookup (files w) (fullPath ++ ".backup").
Proof.
  intros data outputPath w fullPath Hcase.
  assert (Hneq : fullPath <> fullPath ++ ".backup")
    by (intro E; symmetry in E; revert E; apply append_differs; discriminate).
  destruct (writeYamlFile_cases data outputPath w) as (fs1 & Hframe & Hcases).
  change (path_join cwd outputPath) with fullPath in Hframe, Hcases.
  assert (H1 : Fs.lookup fs1 (fullPath ++ ".backup")
               = Fs.lookup (files w) (fullPath ++ ".backup")).
  { destruct (Hframe (fullPath ++ ".backup")) as [E | (_ & _ & Hin)]; [exact E|].
    exfalso. exact (backup_not_on_the_way fullPath Hin). }
  destruct Hcases as [[_ ->] | (fs2 & Hmade & Hcases)]; [exact H1|].
  assert (H2 : fs2 = fs1).
  { destruct Hmade as [[-> _] | (content & Hon & Hcontent & _)]; [reflexivity|].
    exfalso. destruct Hcase as [Hoff | Hnone]; [congruence|].
    destruct (Hframe fullPath) as [E | (_ & E & _)]; congruence. }
  subst fs2.
  destruct Hcases as [[_ ->] | [_ ->]]; [exact H1|].
  rewrite lookup_set_other by exact Hneq. exact H1.
Qed.

(** X12. The backup is a single slot: of two writes in a row that both
    return, with backups enabled, the second leaves in [<path>.backup]
    what the first wrote, and in [<path>] its own text. *)
Theorem X12_second_write_replaces_the_backup :
  forall (first second : jsvalue) (outputPath : string) (w : world),
    let fullPath := path_join cwd outputPath in
    let w1 := snd (writeYamlFile first outputPath w) in
    let w2 := snd (writeYamlFile second outputPath w1) in
    Cfg.enabled config Cfg.backupBeforeSync = true ->
    fst (writeYamlFile first outputPath w) = Returned true ->
    fst (writeYamlFile second outputPath w1) = Returned true ->
    Fs.lookup (files w2) (fullPath ++ ".backup") = Some (File (YAML_stringify first))
    /\ Fs.lookup (files w2) fullPath = Some (File (YAML_stringify second)).
Proof.
  intros first second outputPath w fullPath w1 w2 Hon Hfirst Hsecond.
  pose proof (writeYamlFile_written first outputPath w Hfirst) as Hfile.
  destruct (writeYamlFile_with_backup second outputPath (YAML_stringify first) w1
              Hon Hfile) as [[[e He] _] | [Hcopy Hwritten]].
  - fold w1 in He. rewrite Hsecond in He. discriminate He.
  - split; [exact Hcopy | exact (Hwritten Hsecond)].
Qed.

Lemma rethrown_after_a_line {A : Type} (m : M A) (line_of : exn -> string) w e :
  fst (try_catch m (fun error => console_error (line_of error) ;; throw error) w)
  = Thrown e ->
  exists earlier,
    console (snd (try_catch m
                    (fun error => console_error (line_of error) ;; throw error) w))
    = (earlier ++ [Err (line_of e)])%list.
Proof.
  unfold try_catch. destruct (m w) as [[a|e'|code|] w1]; cbn;
    intro H; try discriminate H.
  injection H as <-. eexists. reflexivity.
Qed.

(** X13. [writeYamlFile] rethrows what it catches, after a line on the
    error console that ends the output so far. *)
Theorem X13_writer_logs_what_it_rethrows :
  forall (data : jsvalue) (outputPath : string) (w : world) (e : exn),
    fst (writeYamlFile data outputPath w) = Thrown e ->
    exists earlier,
      console (snd (writeYamlFile data outputPath w))
      = (earlier ++ [Err ("  Error writing YAML file: " ++ message e)])%list.
Proof.
  intros data outputPath w e. unfold writeYamlFile.
  apply (rethrown_after_a_line _ (fun error => "  Error writing YAML file: "
                                                ++ message error)).
Qed.

(** ** More on one source *)

(** X14. What [fetchSheetData] hands on is never falsy: [null], [false],
    [0] and the empty string have all become the empty array. *)
Theorem X14_fetched_data_is_truthy :
  forall (hops : nat) (sheetConfig : Cfg.SheetConfig) (w : world) (v : jsvalue),
    fst (fetchSheetData hops sheetConfig w) = Returned v -> truthy v = true.
Proof.
  intros hops sheetConfig w v. rewrite fetchSheetData_outcome.
  destruct (fst (fetchJson hops (Cfg.jsonUrl sheetConfig) w)) as [data|e|code|];
    try discriminate.
  intro H. injection H as <-. destruct (truthy data) eqn:Hdata; [exact Hdata | reflexivity].
Qed.

(** The [try] block of [syncSheet], stage by stage, from the outcomes of
    the three stages in the world it starts from. *)
Lemma sync_stages_by_stage hops sheetName sheetConfig w :
  let stages := sync_stages hops sheetName sheetConfig w in
  match fst (fetchJson hops (Cfg.jsonUrl sheetConfig) w) with
  | Returned data =>
      let normalizedData := normalizeData (if truthy data then data else VArray []) in
      let written := writeYamlFile normalizedData (Cfg.outputPath sheetConfig) w in
      match (if Cfg.enabled config Cfg.validateData
             then fst (validateData sheetName normalizedData w)
             else Returned true) with
      | Returned _ =>
          fst stages
          = match fst written with
            | Returned _ => Returned (Synced (record_count normalizedData))
            | Thrown e => Thrown e
            | Exited code => Exited code
            | Pending => Pending
            end
          /\ files (snd stages) = files (snd written)
      | Thrown e => fst stages = Thrown e /\ files (snd stages) = files w
      | Exited code => fst stages = Exited code /\ files (snd stages) = files w
      | Pending => fst stages = Pending /\ files (snd stages) = files w
      end
  | Thrown e => fst stages = Thrown e /\ files (snd stages) = files w
  | Exited code => fst stages = Exited code /\ files (snd stages) = files w
  | Pending => fst stages = Pending /\ files (snd stages) = files w
  end.
Proof.
  intro stages. subst stages.
  pose proof (fetchSheetData_outcome hops sheetConfig w) as Hraw.
  pose proof (quiet_files _ (fetchSheetData_quiet hops sheetConfig) w) as Hfiles1.
  cbv beta iota zeta delta [sync_stages bind].
  destruct (fetchSheetData hops sheetConfig w) as [o1 w1]. cbn [fst snd] in Hraw, Hfiles1.
  subst o1.
  destruct (fst (fetchJson hops (Cfg.jsonUrl sheetConfig) w)) as [data|e|code|];
    try (split; [reflexivity | exact Hfiles1]).
  cbv beta iota.
  set (normalizedData := normalizeData (if truthy data then data else VArray [])).
  assert (Hwrite : forall w2, files w2 = files w ->
            let written := writeYamlFile normalizedData (Cfg.outputPath sheetConfig) w in
            let written2 := writeYamlFile normalizedData (Cfg.outputPath sheetConfig) w2 in
            fst (let (o, w') := written2 in
                 match o with
                 | Returned _ => ret (Synced (record_count normalizedData)) w'
                 | Thrown e => (Thrown e, w')
                 | Exited code => (Exited code, w')
                 | Pending => (Pending, w')
                 end)
            = match fst written with
              | Returned _ => Returned (Synced (record_count normalizedData))
              | Thrown e => Thrown e
              | Exited code => Exited code
              | Pending => Pending
              end
            /\ files (snd (let (o, w') := written2 in
                           match o with
                           | Returned _ => ret (Synced (record_count normalizedData)) w'
                           | Thrown e => (Thrown e, w')
                           | Exited code => (Exited code, w')
                           | Pending => (Pending, w')
                           end))
               = files (snd written)).
  { intros w2 Hfiles2 written written2. subst written written2.
    destruct (writeYamlFile_files_only normalizedData (Cfg.outputPath sheetConfig)
                w2 w Hfiles2) as [Ho Hf].
    destruct (writeYamlFile normalizedData (Cfg.outputPath sheetConfig) w2) as [o3 w3].
    cbn [fst snd] in Ho, Hf. rewrite <- Ho, <- Hf. destruct o3; split; reflexivity. }
  destruct (Cfg.enabled config Cfg.validateData).
  - pose proof (quiet_outcome _ (validateData_quiet sheetName normalizedData) w1 w) as Ho.
    pose proof (quiet_files _ (validateData_quiet sheetName normalizedData) w1) as Hf.
    destruct (validateData sheetName normalizedData w1) as [o2 w2].
    cbn [fst snd] in Ho, Hf. rewrite <- Ho.
    destruct o2; try (split; [reflexivity | cbn [snd]; congruence]).
    apply Hwrite. congruence.
  - apply Hwrite. exact Hfiles1.
Qed.

Lemma validateData_returns_true sheetName data w b :
  fst (validateData sheetName data w) = Returned b -> b = true.
Proof.
  destruct data; try discriminate. rewrite validateData_array.
  destruct (List.length (filter invalid_item items) =? 0)%nat; congruence.
Qed.

(** X15. When the fetch fails, [syncSheet] reports the failure with the
    message of the error and changes no file. *)
Theorem X15_failed_fetch_changes_no_file :
  forall (hops : nat) (sheetName : string) (sheetConfig : Cfg.SheetConfig)
         (w : world) (e : exn),
    fst (fetchJson hops (Cfg.jsonUrl sheetConfig) w) = Thrown e ->
    fst (syncSheet hops sheetName (Some sheetConfig) w) = Returned (Failed (message e))
    /\ files (snd (syncSheet hops sheetName (Some sheetConfig) w)) = files w.
Proof.
  intros hops sheetName sheetConfig w e Hfetch.
  destruct (syncSheet_outcome hops sheetName sheetConfig w) as [-> ->].
  pose proof (sync_stages_by_stage hops sheetName sheetConfig w) as Hstages.
  cbv zeta in Hstages. rewrite Hfetch in Hstages. destruct Hstages as [-> ->].
  split; reflexivity.
Qed.

(** X16. With validation on, data that [validateData] rejects is never
    written: [syncSheet] reports the failure and changes no file. *)
Theorem X16_rejected_data_is_not_written :
  forall (hops : nat) (sheetName : string) (sheetConfig : Cfg.SheetConfig)
         (data : jsvalue) (w : world) (e : exn),
    Cfg.enabled config Cfg.validateData = true ->
    fst (fetchJson hops (Cfg.jsonUrl sheetConfig) w) = Returned data ->
    fst (validateData sheetName
           (normalizeData (if truthy data then data else VArray [])) w) = Thrown e ->
    fst (syncSheet hops sheetName (Some sheetConfig) w) = Returned (Failed (message e))
    /\ files (snd (syncSheet hops sheetName (Some sheetConfig) w)) = files w.
Proof.
  intros hops sheetName sheetConfig data w e Hon Hfetch Hinvalid.
  destruct (syncSheet_outcome hops sheetName sheetConfig w) as [-> ->].
  pose proof (sync_stages_by_stage hops sheetName sheetConfig w) as Hstages.
  cbv zeta in Hstages. rewrite Hfetch, Hon, Hinvalid in Hstages.
  destruct Hstages as [-> ->]. split; reflexivity.
Qed.

(** X17. A success that [syncSheet] reports is a real one: the fetch
    resolved, the normalized data passed the validation where it is
    configured, the count is the record count of the normalized data, and
    the target file holds its YAML text. *)
Theorem X17_reported_success_is_on_disk :
  forall (hops : nat) (sheetName : string) (sheetConfig : Cfg.SheetConfig)
         (w : world) (n : nat),
    fst (syncSheet hops sheetName (Some sheetConfig) w) = Returned (Synced n) ->
    exists data,
      let normalizedData := normalizeData (if truthy data then data else VArray []) in
      fst (fetchJson hops (Cfg.jsonUrl sheetConfig) w) = Returned data
      /\ (Cfg.enabled config Cfg.validateData = true ->
          fst (validateData sheetName normalizedData w) = Returned true)
      /\ n = record_count normalizedData
      /\ Fs.lookup (files (snd (syncSheet hops sheetName (Some sheetConfig) w)))
           (path_join cwd (Cfg.outputPath sheetConfig))
         = Some (File (YAML_stringify normalizedData)).
Proof.
  intros hops sheetName sheetConfig w n.
  destruct (syncSheet_outcome hops sheetName sheetConfig w) as [-> ->].
  pose proof (sync_stages_by_stage hops sheetName sheetConfig w) as Hstages.
  cbv zeta in Hstages.
  destruct (fst (fetchJson hops (Cfg.jsonUrl sheetConfig) w)) as [data|e|code|];
    try (destruct Hstages as [-> _]; discriminate).
  intro Hsynced. exists data. cbv zeta.
  set (normalizedData := normalizeData (if truthy data then data else VArray [])) in *.
  assert (Hvalid : Cfg.enabled config Cfg.validateData = true ->
                   fst (validateData sheetName normalizedData w) = Returned true).
  { intro Hon. rewrite Hon in Hstages.
    destruct (fst (validateData sheetName normalizedData w)) as [b|e|code|] eqn:Hv;
      try (destruct Hstages as [Hs _]; rewrite Hs in Hsynced; discriminate).
    rewrite (validateData_returns_true _ _ _ _ Hv). reflexivity. }
  assert (Hreached :
            fst (sync_stages hops sheetName sheetConfig w)
            = match fst (writeYamlFile normalizedData (Cfg.outputPath sheetConfig) w) with
              | Returned _ => Returned (Synced (record_count normalizedData))
              | Thrown e => Thrown e
              | Exited code => Exited code
              | Pending => Pending
              end
            /\ files (snd (sync_stages hops sheetName sheetConfig w))
               = files (snd (writeYamlFile normalizedData (Cfg.outputPath sheetConfig) w))).
  { destruct (Cfg.enabled config Cfg.validateData).
    - rewrite (Hvalid eq_refl) in Hstages. exact Hstages.
    - exact Hstages. }
  destruct Hreached as [Ho Hf]. rewrite Ho in Hsynced. rewrite Hf.
  destruct (fst (writeYamlFile normalizedData (Cfg.outputPath sheetConfig) w))
    as [b|e|code|] eqn:Hw; try discriminate Hsynced.
  pose proof (writeYamlFile_returns_true _ _ _ _ Hw) as ->.
  split; [reflexivity|]. split; [exact Hvalid|]. split; [congruence|].
  apply writeYamlFile_written, Hw.
Qed.

(** ** More on the whole run *)

Lemma validate_urls_stops todo : forall w,
  Forall (fun entry => snd entry <> None) todo ->
  Exists (fun entry => exists sheetConfig,
              snd entry = Some sheetConfig /\ url_not_configured sheetConfig = true)
    todo ->
  exists w',
    validate_urls todo w = (Exited 1%Z, w')
    /\ files w' = files w /\ requests w' = requests w.
Proof.
  induction todo as [|[name [sheetConfig|]] rest IH]; intros w Hdefined Hbad.
  - inversion Hbad.
  - cbn [validate_urls]. destruct (url_not_configured sheetConfig) eqn:Hurl.
    + cbv beta iota delta [when bind console_error process_exit].
      eexists. split; [reflexivity|]. split; reflexivity.
    + cbv beta iota delta [when bind ret]. apply IH.
      * inversion Hdefined; assumption.
      * inversion Hbad as [? ? (sc & Hsc & Hsc_bad)|]; subst; [|assumption].
        cbn in Hsc. injection Hsc as <-. congruence.
  - inversion Hdefined as [|? ? Hnone _]; subst. contradiction Hnone. reflexivity.
Qed.

(** X18. The check of the URLs is all or nothing: if one of the sources
    to process has no URL, an empty one or one that still holds
    [YOUR_], the run exits with 1 having asked the network for nothing
    and changed no file, also for the sources that are configured. *)
Theorem X18_one_unconfigured_url_stops_the_run :
  forall (hops : nat) (targetSheet : option string) (w : world),
    Forall (fun entry => snd entry <> None) (sheets_to_sync targetSheet) ->
    Exists (fun entry => exists sheetConfig,
                snd entry = Some sheetConfig /\ url_not_configured sheetConfig = true)
      (sheets_to_sync targetSheet) ->
    fst (run hops targetSheet w) = Exited 1%Z
    /\ requests (snd (run hops targetSheet w)) = requests w
    /\ files (snd (run hops targetSheet w)) = files w.
Proof.
  intros hops targetSheet w Hdefined Hbad.
  unfold run, main. set (todo := sheets_to_sync targetSheet) in *.
  cbv beta iota zeta delta [try_catch bind console_log].
  assert (Hlen : (List.length todo =? 0)%nat = false)
    by (destruct todo; [inversion Hbad | reflexivity]).
  rewrite Hlen. cbv beta iota delta [when ret].
  match goal with
  | |- context [validate_urls todo ?w1] =>
      destruct (validate_urls_stops todo w1 Hdefined Hbad) as (w' & -> & Hf & Hr)
  end.
  cbn [fst snd]. split; [reflexivity|]. split; assumption.
Qed.





Lemma print_summary_totals results : forall t w,
  exists t' w',
    print_summary results t w = (Returned t', w')
    /\ totalSuccess t' + totalFailed t'
       = totalSuccess t + totalFailed t + List.length results
    /\ totalRecords t' = totalRecords t + synced_records results
    /\ files w' = files w /\ requests w' = requests w.
Proof.
  induction results as [|[name [count|error]] rest IH]; intros t w.
  - exists t, w. cbn. repeat split; lia.
  - cbn [print_summary]. cbv beta iota delta [bind console_log].
    match goal with
    | |- context [print_summary rest ?t1 ?w1] =>
        destruct (IH t1 w1) as (t' & w' & -> & Hsum & Hrec & Hf & Hr)
    end.
    exists t', w'. cbn in *. repeat split; try assumption; lia.
  - cbn [print_summary]. cbv beta iota delta [bind console_log].
    match goal with
    | |- context [print_summary rest ?t1 ?w1] =>
        destruct (IH t1 w1) as (t' & w' & -> & Hsum & Hrec & Hf & Hr)
    end.
    exists t', w'. cbn in *. repeat split; try assumption; lia.
Qed.

(** X20. The summary accounts for every result once: the sources counted
    as succeeded and as failed add up to the number of results, and the
    total of records is the sum over the successful ones. Printing it
    changes no file and asks for nothing. *)
Theorem X20_summary_accounts_for_every_result :
  forall (results : list (string * SyncResult)) (w : world),
    exists t w',
      print_summary results (mkTotals 0 0 0) w = (Returned t, w')
      /\ totalSuccess t + totalFailed t = List.length results
      /\ totalRecords t = synced_records results
      /\ files w' = files w /\ requests w' = requests w.
Proof.
  intros results w.
  destruct (print_summary_totals results (mkTotals 0 0 0) w)
    as (t & w' & Hrun & Hsum & Hrec & Hf & Hr).
  exists t, w'. cbn in Hsum, Hrec. auto.
Qed.

(** X21. With no source configured and no target given, the run stops at
    once with exit code 1; its message names the sheet [undefined]. *)
Theorem X21_no_sources_configured :
  forall (hops : nat) (w : world),
    Cfg.sheets config = [] ->
    run hops None w
    = (Exited 1%Z,
       mkWorld (files w)
         (console w
          ++ [Out "Starting Google Sheets JSON to YAML sync...";
              Err ("Error: Sheet " ++ dquote ++ "undefined" ++ dquote
                   ++ " not found in config");
              Err "Available sheets: "])
         (requests w)).
Proof.
  intros hops w Hnone. unfold run, main, sheets_to_sync. rewrite Hnone.
  cbv beta iota zeta delta [try_catch bind console_log console_error when
                              process_exit map List.length Nat.eqb target_text
                              files console requests String.concat].
  rewrite <- !app_assoc. reflexivity.
Qed.

Lemma syncSheet_outcome_files_only hops sheetName sheetConfig w w' :
  files w = files w' ->
  fst (syncSheet hops sheetName (Some sheetConfig) w)
  = fst (syncSheet hops sheetName (Some sheetConfig) w').
Proof.
  intro Hfiles.
  destruct (syncSheet_outcome hops sheetName sheetConfig w) as [-> _].
  destruct (syncSheet_outcome hops sheetName sheetConfig w') as [-> _].
  destruct (sync_stages_files_only hops sheetName sheetConfig w w' Hfiles) as [-> _].
  reflexivity.
Qed.

(** X22. A run for one source named on the command line, under another
    name than [__proto__], and configured exits with 0 exactly when
    [syncSheet] succeeds for that source, and with 1 when it reports a
    failure. *)
Theorem X22_single_target_exit_code :
  forall (hops : nat) (name : string) (sheetConfig : Cfg.SheetConfig) (w : world),
    name <> "" ->
    name <> "__proto__" ->
    Cfg.get_sheet config name = Some sheetConfig ->
    url_not_configured sheetConfig = false ->
    fst (run hops (Some name) w)
    = match fst (syncSheet hops name (Some sheetConfig) w) with
      | Returned (Synced _) => Exited 0%Z
      | Returned (Failed _) => Exited 1%Z
      | Thrown _ => Exited 1%Z
      | Exited code => Exited code
      | Pending => Pending
      end.
Proof.
  intros hops name sheetConfig w Hname Hplain Hget Hurl.
  unfold run, main, sheets_to_sync. rewrite Hget.
  apply String.eqb_neq in Hname. rewrite Hname. cbn [negb].
  apply String.eqb_neq in Hplain.
  cbv beta iota zeta delta [try_catch bind console_log when ret validate_urls
                              List.length Nat.eqb sync_each assign_prop].
  rewrite Hurl, Hplain. cbv beta iota.
  match goal with
  | |- context [syncSheet hops name (Some sheetConfig) ?w1] =>
      rewrite (syncSheet_outcome_files_only hops name sheetConfig w w1 eq_refl);
      destruct (syncSheet hops name (Some sheetConfig) w1) as [[[count|error]|e|code|] w2]
  end; reflexivity.
Qed.

End Script.

(** ** The properties on the sample installation *)

(** A full run with validation on: [settings] fails the validation, and
    [events], which comes after it, is still fetched, written and
    counted; the process exits with 1. *)
Example sample_run_goes_on_after_a_failure :
  let after := run sample_config "/repo" sample_network sample_stringify sample_ToString 2 None
                 sample_world in
  fst after = Exited 1%Z
  /\ requests (snd after)
     = ["https://sheets.example/board"; "https://cdn.example/board.json";
        "https://sheets.example/settings"; "https://sheets.example/events"]
  /\ In (Out "board: 2 records synced") (console (snd after))
  /\ In (Out "settings: Failed - Data for settings is not an array")
        (console (snd after))
  /\ In (Out "events: 0 records synced") (console (snd after))
  /\ Fs.lookup (files (snd after)) "/repo/data/events/upcoming.yaml"
     = Some (File "# 0 records").
Proof.
  vm_compute. repeat split; auto 30.
Qed.

Lemma C5_witness :
  let items := [VObject [("name", VString "  Jane  "); ("elected", VString "true")];
                VObject [("name", VString "John"); ("elected", VNull)]] in
  (exists normalized,
      normalizeData (VArray items) = VArray normalized
      /\ List.length normalized = List.length items
      /\ Forall (fun item => is_mapping item = true) normalized)
  /\ fst (validateData "board" (normalizeData (VArray items)) sample_world) = Returned true
  /\ record_count (normalizeData (VArray items)) = 2
  /\ fst (syncSheet sample_config "/repo" sample_network sample_stringify sample_ToString 2 "board"
            (Some (Cfg.mkSheet (Some "https://sheets.example/board")
                     "data/board/members.yaml" "Board members data"))
            sample_world)
     = Returned (Synced 2).
Proof.
  intro items.
  destruct (C5_mappings_normalize_validate_count
              sample_config "/repo" sample_network sample_stringify sample_ToString 2 "board"
              (Cfg.mkSheet (Some "https://sheets.example/board")
                 "data/board/members.yaml" "Board members data")
              items sample_world) as (Hshape & Hvalid & Hcount & Hsync).
  - repeat constructor.
  - split; [exact Hshape|]. split; [exact Hvalid|]. split; [exact Hcount|].
    apply Hsync; vm_compute; reflexivity.
Defined.

Lemma C6_witness :
  run sample_config "/repo" sample_network sample_stringify sample_ToString 2 (Some "staff") sample_world
  = (Exited 1%Z,
     mkWorld (files sample_world)
       [Out "Starting Google Sheets JSON to YAML sync...";
        Err "Unexpected error: TypeError: Cannot read properties of undefined (reading 'jsonUrl')"]
       []).
Proof.
  apply (C6_unknown_target_is_a_type_error
           sample_config "/repo" sample_network sample_stringify sample_ToString
           2 "staff" sample_world).
  - discriminate.
  - cbn. intros [H | [H | [H | []]]]; discriminate H.
  - cbn. intro H.
    repeat (destruct H as [E | H]; [discriminate E|]). exact H.
Defined.



Lemma C8_witness :
  let result :=
    writeYamlFile sample_config "/repo" sample_stringify sample_ToString
      (normalizeData sample_board) "data/board/members.yaml" sample_world in
  fst result = Returned true
  /\ Fs.lookup (files (snd result)) "/repo/data/board/members.yaml.backup"
     = Some (File "- name: Old")
  /\ Fs.lookup (files (snd result)) "/repo/data/board/members.yaml"
     = Some (File (sample_stringify (normalizeData sample_board))).
Proof.
  intro result.
  destruct (C8_backup_holds_previous_content
              sample_config "/repo" sample_stringify sample_ToString
              (normalizeData sample_board) "data/board/members.yaml" "- name: Old"
              sample_world) as (_ & _ & Hrun).
  - reflexivity.
  - reflexivity.
  - destruct Hrun as (Hbackup & Hfile & Hreturns); [reflexivity | reflexivity |].
    split; [apply Hreturns; [discriminate | eexists; reflexivity]|].
    split; [exact Hbackup | apply Hfile; discriminate].
Defined.

Lemma C9_witness :
  let events := Cfg.mkSheet (Some "https://sheets.example/events")
                  "data/events/upcoming.yaml" "Upcoming PTSA events" in
  fst (fetchSheetData sample_network 2 events sample_world) = Returned (VArray [])
  /\ fst (validateData "events" (normalizeData (VArray [])) sample_world) = Returned true
  /\ fst (syncSheet sample_config "/repo" sample_network sample_stringify sample_ToString 2 "events"
            (Some events) sample_world)
     = match fst (writeYamlFile sample_config "/repo" sample_stringify sample_ToString (VArray [])
                    (Cfg.outputPath events) sample_world) with
       | Thrown e => Returned (Failed (message e))
       | _ => Returned (Synced 0)
       end.
Proof.
  intro events.
  apply (C9_falsy_or_empty_body_counts_zero
           sample_config "/repo" sample_network sample_stringify sample_ToString 2 "events" events
           VNull sample_world).
  - vm_compute. reflexivity.
  - left. reflexivity.
Defined.



(** ** The further properties on the sample installation *)

Lemma X1_witness :
  fetchJson sample_network_loop 3 (Some "https://sheets.example/loop") sample_world
  = (Pending,
     mkWorld (files sample_world) (console sample_world)
       (requests sample_world ++ repeat "https://sheets.example/loop" 4)).
Proof.
  apply (X1_redirect_cycle_never_settles sample_network_loop
           "https://sheets.example/loop" "Found" 302
           (SyntaxError "Unexpected end of JSON input") 3 sample_world).
  - reflexivity.
  - right. reflexivity.
Defined.

Lemma X2_witness :
  exists (u statusMessage : string) (location : option string) (earlier : list string),
    sample_network u = Response 200 statusMessage location (Json sample_board)
    /\ requests (snd (fetchJson sample_network 2 (Cfg.jsonUrl board_sheet) sample_world))
       = (earlier ++ [u])%list.
Proof.
  apply (X2_resolves_only_to_a_200_body sample_network 2 (Cfg.jsonUrl board_sheet)
           sample_world sample_board).
  vm_compute. reflexivity.
Defined.

Lemma X5_witness :
  exists normalized,
    normalizeData (VObject member) = VObject normalized
    /\ map fst normalized
       = filter (fun key => negb (String.eqb key "__proto__")) (map fst member).
Proof.
  apply (X5_normalize_keeps_the_keys member). distinct_keys.
Defined.

Lemma X6_witness :
  exists normalized,
    normalizeData (VObject member) = VObject normalized
    /\ get_prop normalized "elected" = Some (VBool false).
Proof.
  apply (X6_numbers_and_booleans_are_kept member "elected" (VBool false)).
  - distinct_keys.
  - discriminate.
  - reflexivity.
  - left. reflexivity.
Defined.

Lemma X7_witness :
  exists normalized,
    normalizeData (VObject member) = VObject normalized
    /\ get_prop normalized "bio" = Some (VString "").
Proof.
  apply (X7_empty_values_become_the_empty_string member "bio" (VString "   ")).
  - distinct_keys.
  - discriminate.
  - reflexivity.
  - right. right. exists "   ". split; reflexivity.
Defined.

Lemma X8_witness :
  let clean := VArray [VObject [("name", VString "Jane"); ("elected", VBool false);
                                ("tags", VArray [VString " a "; VNull])]] in
  normalizeData clean = clean.
Proof.
  intro clean. apply (X8_clean_values_are_fixed clean); reflexivity.
Defined.

Lemma X10_witness :
  Fs.lookup
    (files (snd (writeYamlFile sample_config "/repo" sample_stringify sample_ToString
                   (normalizeData sample_board) "data/settings.yaml" sample_world)))
    "/repo/data/board/members.yaml"
  = Fs.lookup (files sample_world) "/repo/data/board/members.yaml".
Proof.
  apply (X10_writer_leaves_other_paths_alone sample_config "/repo" sample_stringify sample_ToString
           (normalizeData sample_board) "data/settings.yaml"
           "/repo/data/board/members.yaml" sample_world).
  - vm_compute. discriminate.
  - vm_compute. intros [H | [H | []]]; discriminate H.
  - vm_compute. discriminate.
Defined.

Lemma X11_witness :
  Fs.lookup
    (files (snd (writeYamlFile sample_config_unchecked "/repo" sample_stringify sample_ToString
                   (normalizeData sample_board) "data/board/members.yaml" sample_world)))
    (path_join "/repo" "data/board/members.yaml" ++ ".backup")
  = Fs.lookup (files sample_world)
      (path_join "/repo" "data/board/members.yaml" ++ ".backup").
Proof.
  apply (X11_no_backup_unless_enabled_and_present sample_config_unchecked "/repo"
           sample_stringify sample_ToString (normalizeData sample_board) "data/board/members.yaml"
           sample_world).
  left. reflexivity.
Defined.

Lemma X12_witness :
  let w1 := snd (writeYamlFile sample_config "/repo" sample_stringify sample_ToString
                   sample_board "data/board/members.yaml" sample_world) in
  let w2 := snd (writeYamlFile sample_config "/repo" sample_stringify sample_ToString
                   (VArray []) "data/board/members.yaml" w1) in
  Fs.lookup (files w2) (path_join "/repo" "data/board/members.yaml" ++ ".backup")
  = Some (File (sample_stringify sample_board))
  /\ Fs.lookup (files w2) (path_join "/repo" "data/board/members.yaml")
     = Some (File (sample_stringify (VArray []))).
Proof.
  apply (X12_second_write_replaces_the_backup sample_config "/repo" sample_stringify
           sample_ToString sample_board (VArray []) "data/board/members.yaml"
           sample_world).
  - reflexivity.
  - vm_compute. reflexivity.
  - vm_compute. reflexivity.
Defined.

Lemma X13_witness :
  exists earlier,
    console (snd (writeYamlFile sample_config_unchecked "/repo" sample_stringify sample_ToString
                    sample_settings "data/settings.yaml" sample_world_blocked))
    = (earlier
       ++ [Err ("  Error writing YAML file: "
                ++ message (Error "EISDIR: illegal operation on a directory, open '/repo/data/settings.yaml'"))])%list.
Proof.
  apply (X13_writer_logs_what_it_rethrows sample_config_unchecked "/repo"
           sample_stringify sample_ToString sample_settings "data/settings.yaml" sample_world_blocked
           (Error "EISDIR: illegal operation on a directory, open '/repo/data/settings.yaml'")).
  vm_compute. reflexivity.
Defined.

Lemma X14_witness :
  fst (fetchSheetData sample_network 2 events_sheet sample_world) = Returned (VArray [])
  /\ truthy (VArray []) = true.
Proof.
  assert (Hfetched : fst (fetchSheetData sample_network 2 events_sheet sample_world)
                     = Returned (VArray [])) by (vm_compute; reflexivity).
  split; [exact Hfetched|].
  exact (X14_fetched_data_is_truthy sample_network 2 events_sheet sample_world
           (VArray []) Hfetched).
Defined.

Lemma X15_witness :
  fst (syncSheet sample_config "/repo" sample_network sample_stringify sample_ToString 2 "missing"
         (Some missing_sheet) sample_world)
  = Returned (Failed (message (Error "HTTP 404: Not Found")))
  /\ files (snd (syncSheet sample_config "/repo" sample_network sample_stringify sample_ToString 2
                   "missing" (Some missing_sheet) sample_world))
     = files sample_world.
Proof.
  apply (X15_failed_fetch_changes_no_file sample_config "/repo" sample_network
           sample_stringify sample_ToString 2 "missing" missing_sheet sample_world
           (Error "HTTP 404: Not Found")).
  vm_compute. reflexivity.
Defined.

Lemma X16_witness :
  fst (syncSheet sample_config "/repo" sample_network sample_stringify sample_ToString 2 "settings"
         (Some settings_sheet) sample_world)
  = Returned (Failed (message (Error "Data for settings is not an array")))
  /\ files (snd (syncSheet sample_config "/repo" sample_network sample_stringify sample_ToString 2
                   "settings" (Some settings_sheet) sample_world))
     = files sample_world.
Proof.
  apply (X16_rejected_data_is_not_written sample_config "/repo" sample_network
           sample_stringify sample_ToString 2 "settings" settings_sheet sample_settings sample_world
           (Error "Data for settings is not an array")).
  - reflexivity.
  - vm_compute. reflexivity.
  - vm_compute. reflexivity.
Defined.

Lemma X17_witness :
  exists data,
    let normalizedData := normalizeData (if truthy data then data else VArray []) in
    fst (fetchJson sample_network 2 (Cfg.jsonUrl board_sheet) sample_world)
    = Returned data
    /\ (Cfg.enabled sample_config Cfg.validateData = true ->
        fst (validateData "board" normalizedData sample_world) = Returned true)
    /\ 2 = record_count normalizedData
    /\ Fs.lookup
         (files (snd (syncSheet sample_config "/repo" sample_network sample_stringify sample_ToString
                        2 "board" (Some board_sheet) sample_world)))
         (path_join "/repo" (Cfg.outputPath board_sheet))
       = Some (File (sample_stringify normalizedData)).
Proof.
  apply (X17_reported_success_is_on_disk sample_config "/repo" sample_network
           sample_stringify sample_ToString 2 "board" board_sheet sample_world 2).
  vm_compute. reflexivity.
Defined.

Lemma X18_witness :
  fst (run sample_config_placeholder "/repo" sample_network sample_stringify sample_ToString 2 None
         sample_world) = Exited 1%Z
  /\ requests (snd (run sample_config_placeholder "/repo" sample_network
                      sample_stringify sample_ToString 2 None sample_world))
     = requests sample_world
  /\ files (snd (run sample_config_placeholder "/repo" sample_network
                   sample_stringify sample_ToString 2 None sample_world))
     = files sample_world.
Proof.
  apply (X18_one_unconfigured_url_stops_the_run sample_config_placeholder "/repo"
           sample_network sample_stringify sample_ToString 2 None sample_world).
  - repeat constructor; discriminate.
  - apply Exists_cons_tl, Exists_cons_hd. eexists. split; reflexivity.
Defined.

Lemma X21_witness :
  run (Cfg.mkConfig [] None) "/repo" sample_network sample_stringify sample_ToString 2 None sample_world
  = (Exited 1%Z,
     mkWorld (files sample_world)
       (console sample_world
        ++ [Out "Starting Google Sheets JSON to YAML sync...";
            Err ("Error: Sheet " ++ dquote ++ "undefined" ++ dquote
                 ++ " not found in config");
            Err "Available sheets: "])
       (requests sample_world)).
Proof.
  apply (X21_no_sources_configured (Cfg.mkConfig [] None) "/repo" sample_network
           sample_stringify sample_ToString 2 sample_world).
  reflexivity.
Defined.

Lemma X22_witness :
  fst (run sample_config "/repo" sample_network sample_stringify sample_ToString 2 (Some "board")
         sample_world)
  = match fst (syncSheet sample_config "/repo" sample_network sample_stringify sample_ToString 2
                 "board" (Some board_sheet) sample_world) with
    | Returned (Synced _) => Exited 0%Z
    | Returned (Failed _) => Exited 1%Z
    | Thrown _ => Exited 1%Z
    | Exited code => Exited code
    | Pending => Pending
    end.
Proof.
  apply (X22_single_target_exit_code sample_config "/repo" sample_network
           sample_stringify sample_ToString 2 "board" board_sheet sample_world).
  - discriminate.
  - discriminate.
  - reflexivity.
  - reflexivity.
Defined.
